(** * Engagement analytics of the workshop sidekick

    A shallow embedding of [zoom_mcp_server_production.py]: the participant
    listing ([get_participants]) and the engagement analytics
    ([get_engagement_analytics]) that are computed from the activity records
    kept in DynamoDB or, when no table is available, in CloudWatch Logs.

    The two AWS services are the environment of the program.  They are a
    record of outcomes ([aws]): what each call returns or raises.  Python
    exceptions are values of an error monad, a [dict] is an association list
    in insertion order, and the dictionary handed to [json.dumps] is a [json]
    value.  The items of the table and the messages of the log stream that
    decode are dictionaries with string values, as
    [track_participant_activity] writes them; an entry may be missing. *)

From Stdlib Require Import List String Ascii ZArith Lia Bool.
From Stdlib Require Import Sorting.Sorted Sorting.Permutation.
From Stdlib Require Import Structures.OrderedTypeEx.
Import ListNotations.

Local Open Scope string_scope.
Local Open Scope Z_scope.
Local Open Scope list_scope.

(** ** The Python runtime the program relies on *)

Module Py.

(** Exceptions, by the classes the handlers of the program tell apart. *)
Inductive exn : Type :=
| ClientError (msg : string)
| KeyError (key : string)
| OtherError (msg : string).
(* [OtherError] stands for every other subclass of [Exception]. *)

(** [str(e)] *)
Definition str (e : exn) : string :=
  match e with
  | ClientError msg => msg
  | KeyError key => "'" ++ key ++ "'"
  | OtherError msg => msg
  end.

Definition is_ClientError (e : exn) : bool :=
  match e with ClientError _ => true | _ => false end.

(** [except Exception] *)
Definition is_Exception (e : exn) : bool := true.

(** A computation returns a value or raises. *)
Inductive result (A : Type) : Type :=
| Ok (a : A)
| Raise (e : exn).
Arguments Ok {A} a.
Arguments Raise {A} e.

Definition bind {A B : Type} (c : result A) (k : A -> result B) : result B :=
  match c with
  | Ok a => k a
  | Raise e => Raise e
  end.

(** [try: body / except <class> as e: handler e] *)
Definition try_except {A : Type} (body : result A) (caught : exn -> bool)
    (handler : exn -> result A) : result A :=
  match body with
  | Ok a => Ok a
  | Raise e => if caught e then handler e else Raise e
  end.

(** A [for] loop whose body may raise: the loop stops at the first
    exception. *)
Fixpoint for_each {A S : Type} (body : S -> A -> result S) (l : list A)
    (s : S) : result S :=
  match l with
  | [] => Ok s
  | a :: l' => bind (body s a) (for_each body l')
  end.

(** *** Dictionaries

    A [dict] keeps its keys in insertion order; assigning to a key that is
    present keeps the key where it is. *)
Section Dict.
Context {V : Type}.

Definition dict : Type := list (string * V).

Fixpoint lookup (d : dict) (k : string) : option V :=
  match d with
  | [] => None
  | (k', v) :: d' => if String.eqb k' k then Some v else lookup d' k
  end.

(** [d.get(k, default)] *)
Definition get (d : dict) (k : string) (default : V) : V :=
  match lookup d k with Some v => v | None => default end.

(** [d[k]] *)
Definition getitem (d : dict) (k : string) : result V :=
  match lookup d k with Some v => Ok v | None => Raise (KeyError k) end.

(** [d[k] = v] *)
Fixpoint setitem (d : dict) (k : string) (v : V) : dict :=
  match d with
  | [] => [(k, v)]
  | (k', v') :: d' =>
      if String.eqb k' k then (k', v) :: d' else (k', v') :: setitem d' k v
  end.

Definition keys (d : dict) : list string := map fst d.
Definition values (d : dict) : list V := map snd d.
Definition items (d : dict) : list (string * V) := d.

End Dict.
Arguments dict V : clear implicits.

(** [len(l)] *)
Definition len {A : Type} (l : list A) : Z := Z.of_nat (List.length l).

(** *** [sorted(l, key=..., reverse=True)]

    Python's sort is stable, also with [reverse=True]: elements with equal
    keys keep the order they have in [l].  Insertion from the right, passing
    only elements with a strictly greater key, is that order. *)
Section Sorted.
Context {A : Type} (key : A -> Z).

Fixpoint insert_desc (x : A) (l : list A) : list A :=
  match l with
  | [] => [x]
  | y :: l' => if key x <? key y then y :: insert_desc x l' else x :: l
  end.

Fixpoint sorted_reverse (l : list A) : list A :=
  match l with
  | [] => []
  | x :: l' => insert_desc x (sorted_reverse l')
  end.

End Sorted.

(** *** The argument of [json.dumps] *)
#[local] Set Warnings "-register-all".
Inductive json : Type :=
| JInt (n : Z)
| JStr (s : string)
| JList (l : list json)
| JObj (fields : list (string * json)).

Definition field (r : json) (k : string) : option json :=
  match r with
  | JObj fields => lookup fields k
  | _ => None
  end.

Definition field_names (r : json) : list string :=
  match r with
  | JObj fields => keys fields
  | _ => []
  end.

End Py.

Import Py.

Declare Scope py_scope.
Notation "x <- c ;; k" := (bind c (fun x => k))
  (at level 61, c at next level, right associativity) : py_scope.
Notation "c ;;; k" := (bind c (fun _ => k))
  (at level 61, right associativity) : py_scope.
Local Open Scope py_scope.

(** ** Activity records *)

(** An item of the table, or a decoded log message: a dictionary with string
    values, as [track_participant_activity] writes them. *)
Definition item : Type := dict string.

(** The [activity] dictionary of [track_participant_activity], given the
    reading of the clock. *)
Definition activity_item (timestamp participant_name activity_type details
    session_id : string) : item :=
  [ ("timestamp", timestamp);
    ("participant", participant_name);
    ("activity", activity_type);
    ("details", details);
    ("session_id", session_id) ].

(** What was tracked, field by field. *)
Record tracked : Type := Tracked {
  t_timestamp : string;
  t_participant : string;
  t_activity : string;
  t_details : string
}.

Definition tracked_item (session_id : string) (t : tracked) : item :=
  activity_item (t_timestamp t) (t_participant t) (t_activity t)
    (t_details t) session_id.

(** ** The environment *)

(** The message of a log event under [json.loads]: text that does not decode
    ([JSONDecodeError]), or the activity that [track_participant_activity]
    wrote with [json.dumps]. *)
Inductive log_message : Type :=
| Garbled
| Activity (activity : item).

Inductive table : Type := EngagementTable.

Record aws : Type := {
  (** [boto3.resource('dynamodb').Table(table_name).load()] *)
  table_load : result unit;
  (** [boto3.client('dynamodb').create_table(...)], and the handle of the
      new table *)
  create_table : result unit;
  (** [table.query(KeyConditionExpression=...)['Items']] *)
  table_query : string -> result (list item);
  (** [boto3.client('logs')] *)
  logs_client : result unit;
  (** [logs_client.get_log_events(...)['events']] *)
  get_log_events : string -> result (list log_message);
  (** [datetime.now().isoformat()] *)
  now : string
}.

(** ** The server *)

Definition get_dynamodb_table (w : aws) : result (option table) :=
  try_except
    (table_load w ;;; Ok (Some EngagementTable))
    is_ClientError
    (fun _ =>
       try_except
         (create_table w ;;; Ok (Some EngagementTable))
         is_ClientError
         (fun _ => Ok None)).

(** *** get_participants *)

Record summary : Type := Summary {
  name : string;
  status : string;
  join_time : string;
  activity_count : Z;
  last_activity : string
}.

(** The body of both loops of [get_participants], once [participant] is
    read. *)
Definition note_activity (participants : dict summary) (participant : string)
    (record : item) : result (dict summary) :=
  match lookup participants participant with
  | None =>
      timestamp <- getitem record "timestamp" ;;
      Ok (setitem participants participant
            {| name := participant;
               status := "active";
               join_time := timestamp;
               activity_count := 1;
               last_activity := timestamp |})
  | Some p =>
      timestamp <- getitem record "timestamp" ;;
      Ok (setitem participants participant
            {| name := name p;
               status := status p;
               join_time := join_time p;
               activity_count := activity_count p + 1;
               last_activity := timestamp |})
  end.

Definition fold_item (participants : dict summary) (record : item)
    : result (dict summary) :=
  participant <- getitem record "participant" ;;
  note_activity participants participant record.

Definition fold_event (participants : dict summary) (event : log_message)
    : result (dict summary) :=
  match event with
  | Garbled => Ok participants
  | Activity activity => fold_item participants activity
  end.

Definition summary_json (p : summary) : json :=
  JObj [ ("name", JStr (name p));
         ("status", JStr (status p));
         ("join_time", JStr (join_time p));
         ("activity_count", JInt (activity_count p));
         ("last_activity", JStr (last_activity p)) ].

(** The [try] block of [get_participants], up to the dictionary that is
    serialised.  A [ClientError] on the log path can only come from
    [get_log_events], before the loop: [pass] then leaves the dictionary
    empty. *)
Definition collect_participants (w : aws) (session_id : string)
    : result (dict summary) :=
  tbl <- get_dynamodb_table w ;;
  match tbl with
  | Some _ =>
      response <- table_query w session_id ;;
      for_each fold_item response []
  | None =>
      logs_client w ;;;
      try_except
        (events <- get_log_events w session_id ;;
         for_each fold_event events [])
        is_ClientError
        (fun _ => Ok [])
  end.

Definition participants_report (w : aws) (session_id : string)
    (participants : dict summary) : json :=
  let participant_list := values participants in
  let active_count :=
    len (filter (fun p => String.eqb (status p) "active") participant_list) in
  JObj [ ("total_participants", JInt (len participant_list));
         ("participants", JList (map summary_json participant_list));
         ("active_count", JInt active_count);
         ("timestamp", JStr (now w));
         ("session_id", JStr session_id) ].

Definition participants_failure (w : aws) (e : exn) : json :=
  JObj [ ("total_participants", JInt 0);
         ("participants", JList []);
         ("active_count", JInt 0);
         ("error", JStr ("Failed to get participants: " ++ str e));
         ("timestamp", JStr (now w)) ].

Definition get_participants (w : aws) (session_id : string) : result json :=
  try_except
    (participants <- collect_participants w session_id ;;
     Ok (participants_report w session_id participants))
    is_Exception
    (fun e => Ok (participants_failure w e)).

(** *** get_engagement_analytics *)

(** The loop over the log events: an event that does not decode is
    skipped. *)
Definition decode_events (events : list log_message) : list item :=
  flat_map
    (fun event =>
       match event with
       | Garbled => []
       | Activity activity => [activity]
       end) events.

(** The activities read: lines 198 to 227.  [get_participants] reads the
    same records in the same way (lines 115 to 171), folding them as it
    goes; see [collect_participants_read]. *)
Definition read_activities (w : aws) (session_id : string)
    : result (list item) :=
  tbl <- get_dynamodb_table w ;;
  match tbl with
  | Some _ => table_query w session_id
  | None =>
      logs_client w ;;;
      try_except
        (events <- get_log_events w session_id ;;
         Ok (decode_events events))
        is_ClientError
        (fun _ => Ok [])
  end.

(** [counts[k] = counts.get(k, 0) + 1] *)
Definition bump (counts : dict Z) (k : string) : dict Z :=
  setitem counts k (get counts k 0 + 1).

Definition activity_of (activity : item) : string :=
  get activity "activity" "unknown".

Definition participant_of (activity : item) : string :=
  get activity "participant" "unknown".

(** The loop of lines 233 to 240; the state is
    [(activity_types, participant_activity)]. *)
Definition count_activity (st : dict Z * dict Z) (activity : item)
    : dict Z * dict Z :=
  (bump (fst st) (activity_of activity),
   bump (snd st) (participant_of activity)).

Definition count_activities (activities : list item) : dict Z * dict Z :=
  fold_left count_activity activities ([], []).

Definition top_participants (participant_activity : dict Z)
    : list (string * Z) :=
  firstn 5 (sorted_reverse snd (items participant_activity)).

Definition engagement_score (total_activities unique_participants : Z) : Z :=
  Z.min 100 (total_activities * 2 + unique_participants * 10).

Definition recommend (engagement_score question_count chat_count : Z)
    : list string :=
  (if 70 <? engagement_score then
     ["High engagement detected - workshop is going well"]
   else if engagement_score <? 30 then
     ["Low engagement - consider encouraging more participation"]
   else [])
  ++
  (if 5 <? question_count then
     ["Many questions being asked - consider extending Q&A time"]
   else if question_count <? 2 then
     ["Few questions - consider prompting for questions"]
   else [])
  ++
  (if 10 <? chat_count then ["Good chat interaction"]
   else ["Encourage more chat participation"]).

Definition counts_json (counts : list (string * Z)) : json :=
  JObj (map (fun kv => (fst kv, JInt (snd kv))) counts).

(** Lines 229 to 279: the report on the activities read. *)
Definition analytics_report (w : aws) (session_id : string)
    (activities : list item) : json :=
  let (activity_types, participant_activity) := count_activities activities in
  let top := top_participants participant_activity in
  let total_activities := len activities in
  let unique_participants := len participant_activity in
  let score := engagement_score total_activities unique_participants in
  let question_count := get activity_types "question" 0 in
  let chat_count := get activity_types "chat_message" 0 in
  let recommendations := recommend score question_count chat_count in
  JObj [ ("total_activities", JInt total_activities);
         ("unique_participants", JInt unique_participants);
         ("engagement_score", JInt score);
         ("activity_breakdown", counts_json activity_types);
         ("top_participants", counts_json top);
         ("recommendations", JList (map JStr recommendations));
         ("session_id", JStr session_id);
         ("timestamp", JStr (now w)) ].

Definition analytics_failure (w : aws) (e : exn) : json :=
  JObj [ ("total_activities", JInt 0);
         ("unique_participants", JInt 0);
         ("engagement_score", JInt 0);
         ("error", JStr ("Analytics generation failed: " ++ str e));
         ("timestamp", JStr (now w)) ].

Definition get_engagement_analytics (w : aws) (session_id : string)
    : result json :=
  try_except
    (activities <- read_activities w session_id ;;
     Ok (analytics_report w session_id activities))
    is_Exception
    (fun e => Ok (analytics_failure w e)).

(** ** Vocabulary of the statements *)

(** Occurrences of [k] in [l], and the number of distinct strings of [l], as
    Python integers. *)
Definition count (k : string) (l : list string) : Z :=
  Z.of_nat (count_occ string_dec l k).

Definition distinct (l : list string) : Z :=
  len (nodup string_dec l).

(** Position of the first occurrence of [k] in [l] ([length l] when there is
    none). *)
Fixpoint first_index (k : string) (l : list string) : nat :=
  match l with
  | [] => O
  | x :: l' => if String.eqb x k then O else S (first_index k l')
  end.

(** The counting loop on one column of the records. *)
Definition tally (l : list string) : dict Z := fold_left bump l [].

(** [x] is ranked before [y]: a greater key, or the same key and [x] comes
    before [y]. *)
Definition ranked {A : Type} (key : A -> Z) (before : A -> A -> Prop)
    (x y : A) : Prop :=
  key y < key x \/ (key x = key y /\ before x y).

Definition seen_before (names : list string) (p q : string) : Prop :=
  (first_index p names < first_index q names)%nat.

(** An entry is ranked before another: more records, or as many and its
    participant is seen first. *)
Definition ranks_before (names : list string) (a b : string * Z) : Prop :=
  ranked snd (fun a b => seen_before names (fst a) (fst b)) a b.

(** The effect of one tracked record on the participants. *)
Definition upsert (participants : dict summary) (t : tracked) : dict summary :=
  match lookup participants (t_participant t) with
  | None =>
      setitem participants (t_participant t)
        (Summary (t_participant t) "active" (t_timestamp t) 1 (t_timestamp t))
  | Some p =>
      setitem participants (t_participant t)
        (Summary (name p) (status p) (join_time p) (activity_count p + 1)
           (t_timestamp t))
  end.

Definition replay (recs : list tracked) : dict summary :=
  fold_left upsert recs [].

Definition by_participant (p : string) (t : tracked) : bool :=
  String.eqb (t_participant t) p.

(** Timestamps are compared as Python compares strings. *)
Definition ts_le (a b : string) : Prop := String.leb a b = true.

(** ** Sample environments *)

(** A table that answers every query with [records]. *)
Definition table_with (records : list item) : aws :=
  {| table_load := Ok tt;
     create_table := Ok tt;
     table_query := fun _ => Ok records;
     logs_client := Ok tt;
     get_log_events := fun _ => Ok [];
     now := "2024-05-01T12:00:00.000000" |}.

(** A table whose query raises [e]. *)
Definition table_failing (e : exn) : aws :=
  {| table_load := Ok tt;
     create_table := Ok tt;
     table_query := fun _ => Raise e;
     logs_client := Ok tt;
     get_log_events := fun _ => Ok [];
     now := "2024-05-01T12:00:00.000000" |}.

(** No table can be had, and reading the log stream raises [e]. *)
Definition logs_failing (e : exn) : aws :=
  {| table_load := Raise (ClientError "ResourceNotFoundException");
     create_table := Raise (ClientError "AccessDeniedException");
     table_query := fun _ => Ok [];
     logs_client := Ok tt;
     get_log_events := fun _ => Raise e;
     now := "2024-05-01T12:00:00.000000" |}.

(** Six questions of Alice, then eleven chat messages of Bob. *)
Definition scenario : list tracked :=
  repeat (Tracked "2024-05-01T09:00:00.000000" "Alice" "question" "") 6 ++
  repeat (Tracked "2024-05-01T09:30:00.000000" "Bob" "chat_message" "") 11.

Definition three_records : list tracked :=
  [ Tracked "2024-05-01T09:00:00.000000" "Alice" "question" "IAM roles?";
    Tracked "2024-05-01T09:05:00.000000" "Bob" "chat_message" "hello";
    Tracked "2024-05-01T09:07:30.000000" "Alice" "chat_message" "thanks" ].

(** ** The rest of the server

    [track_participant_activity], [send_workshop_message] and
    [get_workshop_stats] of the same file. *)

(** *** track_participant_activity *)

(** The calls that write. *)
Record aws_writes : Type := {
  (** [table.put_item(Item=activity)] *)
  put_item : item -> result unit;
  (** [logs_client.create_log_group(logGroupName=log_group)] *)
  create_log_group : result unit;
  (** [logs_client.create_log_stream(..., logStreamName=session_id)] *)
  create_log_stream : string -> result unit;
  (** [logs_client.put_log_events(...)] on the stream of the session, with
      the activity whose [json.dumps] is the message *)
  put_log_events : string -> item -> result unit
}.

(** The values of the dictionary that [track_participant_activity]
    returns. *)
Inductive tracking_value : Type :=
| TBool (b : bool)
| TStr (s : string).

(** Lines 61 to 92: the write, and the name of the storage that took it. *)
Definition store_activity (w : aws) (ww : aws_writes) (session_id : string)
    (activity : item) : result string :=
  tbl <- get_dynamodb_table w ;;
  match tbl with
  | Some _ =>
      put_item ww activity ;;;
      Ok "DynamoDB"
  | None =>
      logs_client w ;;;
      try_except (create_log_group ww) is_ClientError (fun _ => Ok tt) ;;;
      try_except (create_log_stream ww session_id) is_ClientError
        (fun _ => Ok tt) ;;;
      put_log_events ww session_id activity ;;;
      Ok "CloudWatch Logs"
  end.

Definition track_participant_activity (w : aws) (ww : aws_writes)
    (participant_name activity_type details session_id : string)
    : result (dict tracking_value) :=
  let activity :=
    activity_item (now w) participant_name activity_type details session_id in
  try_except
    (storage_type <- store_activity w ww session_id activity ;;
     Ok [ ("tracked", TBool true);
          ("participant", TStr participant_name);
          ("activity", TStr activity_type);
          ("storage", TStr storage_type);
          ("session_id", TStr session_id) ])
    is_Exception
    (fun e =>
       Ok [ ("tracked", TBool false);
            ("error", TStr ("Failed to track activity: " ++ str e));
            ("participant", TStr participant_name);
            ("activity", TStr activity_type) ]).

(** *** send_workshop_message *)

Record sns : Type := {
  (** [boto3.client('sns')] *)
  sns_client : result unit;
  (** [sns.publish(TopicArn=..., Message=..., Subject=...)['MessageId']] *)
  publish_topic : string -> string -> result string;
  (** [sns.publish(PhoneNumber=..., Message=...)['MessageId']] *)
  publish_number : string -> string -> result string;
  (** [datetime.now().isoformat()] *)
  sns_now : string
}.

(** The truth value of an optional string and of an optional list: [None]
    and the empty value are false. *)
Definition truthy_str (s : option string) : option string :=
  match s with
  | Some EmptyString => None
  | Some s' => Some s'
  | None => None
  end.

Definition truthy_list {A : Type} (l : option (list A)) : option (list A) :=
  match l with
  | Some [] => None
  | Some l' => Some l'
  | None => None
  end.

(** The body of the loop over the addresses. *)
Definition send_one (n : sns) (message : string) (message_ids : list string)
    (email : string) : result (list string) :=
  try_except
    (response <- publish_number n email message ;;
     Ok (message_ids ++ [response]))
    is_ClientError
    (fun _ => Ok message_ids).

Definition send_workshop_message (n : sns) (message : string)
    (participant_emails : option (list string)) (topic_arn : option string)
    : result json :=
  try_except
    (sns_client n ;;;
     match truthy_str topic_arn with
     | Some arn =>
         response <- publish_topic n arn message ;;
         Ok (JObj [ ("status", JStr "sent");
                    ("method", JStr "SNS Topic");
                    ("message_id", JStr response);
                    ("timestamp", JStr (sns_now n)) ])
     | None =>
         match truthy_list participant_emails with
         | Some emails =>
             message_ids <- for_each (send_one n message) emails [] ;;
             Ok (JObj [ ("status", JStr "sent");
                        ("method", JStr "Individual SNS");
                        ("message_ids", JList (map JStr message_ids));
                        ("recipients", JInt (len message_ids));
                        ("timestamp", JStr (sns_now n)) ])
         | None =>
             Ok (JObj [ ("status", JStr "error");
                        ("error",
                         JStr "No recipients specified (topic_arn or participant_emails required)");
                        ("timestamp", JStr (sns_now n)) ])
         end
     end)
    is_Exception
    (fun e =>
       Ok (JObj [ ("status", JStr "error");
                  ("error", JStr ("Failed to send message: " ++ str e));
                  ("timestamp", JStr (sns_now n)) ])).

(** *** get_workshop_stats *)

(** [json.loads] gives back what [json.dumps] was given; the accesses below
    are those of Python on the loaded value.  The operands are reports of
    the two operations, which are objects: the [TypeError] cases do not
    arise. *)

(** [r[k]] *)
Definition subscript (r : json) (k : string) : result json :=
  match r with
  | JObj fields => getitem fields k
  | _ => Raise (OtherError "TypeError")
  end.

(** [r.get(k, default)] *)
Definition json_get (r : json) (k : string) (default : json) : result json :=
  match r with
  | JObj fields => Ok (get fields k default)
  | _ => Raise (OtherError "AttributeError")
  end.

Definition as_list (r : json) : result (list json) :=
  match r with
  | JList l => Ok l
  | _ => Raise (OtherError "TypeError")
  end.

Definition as_str (r : json) : result string :=
  match r with
  | JStr s => Ok s
  | _ => Raise (OtherError "TypeError")
  end.

(** [min] of a string [m] and the strings of [l]: the first least one. *)
Fixpoint py_min (m : string) (l : list string) : string :=
  match l with
  | [] => m
  | x :: l' => py_min (if String.ltb x m then x else m) l'
  end.

(** [p["join_time"] for p in participants] *)
Definition join_times (participants : list json) : result (list string) :=
  for_each
    (fun times p =>
       join_time <- subscript p "join_time" ;;
       s <- as_str join_time ;;
       Ok (times ++ [s]))
    participants [].

(** The clock of [get_workshop_stats]. *)
Record stats_clock : Type := {
  (** [int((datetime.now() -
        datetime.fromisoformat(earliest_join.replace('Z', '+00:00'))
          .replace(tzinfo=None)).total_seconds() / 60)] *)
  minutes_since : string -> result Z;
  (** the readings [datetime.now().isoformat()] of [start_time],
      [current_time], [last_update] and of the error report *)
  start_now : string;
  current_now : string;
  update_now : string;
  error_now : string
}.

Definition get_workshop_stats (w : aws) (c : stats_clock)
    (session_id : string) : result json :=
  try_except
    (participants_data <- get_participants w session_id ;;
     analytics_data <- get_engagement_analytics w session_id ;;
     participants_json <- subscript participants_data "participants" ;;
     participants <- as_list participants_json ;;
     timing <-
       match participants with
       | [] => Ok (start_now c, 0)
       | _ :: _ =>
           times <- join_times participants ;;
           let earliest_join := py_min (hd "" times) (tl times) in
           duration_minutes <- minutes_since c earliest_join ;;
           Ok (earliest_join, duration_minutes)
       end ;;
     active_count <- subscript participants_data "active_count" ;;
     total_participants <- subscript participants_data "total_participants" ;;
     total_activities <- subscript analytics_data "total_activities" ;;
     breakdown <- subscript analytics_data "activity_breakdown" ;;
     questions_asked <- json_get breakdown "question" (JInt 0) ;;
     chat_messages <- json_get breakdown "chat_message" (JInt 0) ;;
     score <- subscript analytics_data "engagement_score" ;;
     tbl <- get_dynamodb_table w ;;
     Ok (JObj
           [ ("session_info",
              JObj [ ("session_id", JStr session_id);
                     ("start_time", JStr (fst timing));
                     ("current_time", JStr (current_now c));
                     ("duration_minutes", JInt (snd timing));
                     ("status", JStr "active") ]);
             ("participation",
              JObj [ ("currently_joined", active_count);
                     ("total_participants", total_participants);
                     ("peak_attendance", total_participants) ]);
             ("engagement",
              JObj [ ("total_activities", total_activities);
                     ("questions_asked", questions_asked);
                     ("chat_messages", chat_messages);
                     ("engagement_score", score) ]);
             ("technical_health",
              JObj [ ("storage_status",
                      JStr (match tbl with
                            | Some _ => "DynamoDB"
                            | None => "CloudWatch Logs"
                            end));
                     ("data_collection", JStr "active");
                     ("last_update", JStr (update_now c)) ]) ]))
    is_Exception
    (fun e =>
       Ok (JObj [ ("session_id", JStr session_id);
                  ("error", JStr ("Failed to get workshop stats: " ++ str e));
                  ("timestamp", JStr (error_now c)) ])).

(** *** Vocabulary and sample environments for the rest *)

(** The dictionary [d] with [g] applied to its values. *)
Definition map_values {V W : Type} (g : V -> W) (d : dict V) : dict W :=
  map (fun kv => (fst kv, g (snd kv))) d.

(** The sum of a list of Python integers. *)
Definition sum_of (l : list Z) : Z := fold_right Z.add 0 l.

(** The entries that [get_participants] subscripts. *)
Definition has_keys (record : item) : Prop :=
  lookup record "participant" <> None /\ lookup record "timestamp" <> None.

(** The value at the end of a path of keys in nested objects. *)
Fixpoint at_path (r : json) (path : list string) : option json :=
  match path with
  | [] => Some r
  | k :: path' =>
      match field r k with
      | Some r' => at_path r' path'
      | None => None
      end
  end.

(** The message ids of the addresses that SNS accepts, in the order of the
    addresses. *)
Definition accepted (n : sns) (message : string) (emails : list string)
    : list string :=
  flat_map
    (fun email =>
       match publish_number n email message with
       | Ok message_id => [message_id]
       | Raise _ => []
       end) emails.

(** A call returns or raises a [ClientError]. *)
Definition at_worst_ClientError {A : Type} (c : result A) : Prop :=
  match c with
  | Ok _ => True
  | Raise e => is_ClientError e = true
  end.

(** No table can be had; the log stream holds [events]. *)
Definition logs_with (events : list log_message) : aws :=
  {| table_load := Raise (ClientError "ResourceNotFoundException");
     create_table := Raise (ClientError "AccessDeniedException");
     table_query := fun _ => Ok [];
     logs_client := Ok tt;
     get_log_events := fun _ => Ok events;
     now := "2024-05-01T12:00:00.000000" |}.

(** Every write is accepted. *)
Definition writes_accepted : aws_writes :=
  {| put_item := fun _ => Ok tt;
     create_log_group := Ok tt;
     create_log_stream := fun _ => Ok tt;
     put_log_events := fun _ _ => Ok tt |}.

(** The log group and the stream exist already; the table rejects the
    item. *)
Definition writes_to_existing_stream : aws_writes :=
  {| put_item := fun _ => Raise (ClientError "ValidationException");
     create_log_group := Raise (ClientError "ResourceAlreadyExistsException");
     create_log_stream :=
       fun _ => Raise (ClientError "ResourceAlreadyExistsException");
     put_log_events := fun _ _ => Ok tt |}.

(** Numbers that start with "+1" are accepted, with a message id made of
    the number; other addresses are rejected. *)
Definition sns_for_us_numbers : sns :=
  {| sns_client := Ok tt;
     publish_topic := fun arn _ => Ok ("topic-" ++ arn)%string;
     publish_number :=
       fun number _ =>
         if String.prefix "+1" number then Ok ("id-" ++ number)%string
         else Raise (ClientError "InvalidParameter");
     sns_now := "2024-05-01T12:00:00.000000" |}.

(** As [sns_for_us_numbers], but the connection breaks at a number that
    starts with "+44". *)
Definition sns_with_outage : sns :=
  {| sns_client := Ok tt;
     publish_topic := fun arn _ => Ok ("topic-" ++ arn)%string;
     publish_number :=
       fun number _ =>
         if String.prefix "+1" number then Ok ("id-" ++ number)%string
         else if String.prefix "+44" number then
           Raise (OtherError "Could not connect to the endpoint URL")
         else Raise (ClientError "InvalidParameter");
     sns_now := "2024-05-01T12:00:00.000000" |}.

(** A clock that tells 42 minutes for every start. *)
Definition clock_at_noon : stats_clock :=
  {| minutes_since := fun _ => Ok 42;
     start_now := "2024-05-01T12:00:00.000001";
     current_now := "2024-05-01T12:00:00.000002";
     update_now := "2024-05-01T12:00:00.000003";
     error_now := "2024-05-01T12:00:00.000004" |}.

(** ** The storages as the recorder fills them

    The table has the key schema of lines 33 to 36: [session_id] is the hash
    key and [timestamp] the range key.  [put_item] (line 64) replaces the
    item that has the key of the new one, and a query returns the items of a
    session in the order of the range key.  The log stream (lines 84 to 91)
    keeps every event, in the order of arrival. *)

(** The participant name that a record carries: its ["participant"] entry;
    a record without one is counted under ["unknown"]. *)
Definition recorded_participant (record : item) : string :=
  match lookup record "participant" with
  | Some participant => participant
  | None => "unknown"
  end.

Definition session_of (record : item) : string := get record "session_id" "".

Definition timestamp_of (record : item) : string := get record "timestamp" "".

Definition same_key (a b : item) : bool :=
  String.eqb (session_of a) (session_of b) &&
  String.eqb (timestamp_of a) (timestamp_of b).

Definition by_timestamp (a b : item) : Prop :=
  ts_le (timestamp_of a) (timestamp_of b).

(** The rows of the table are kept in the order of their timestamps. *)
Fixpoint table_insert (record : item) (rows : list item) : list item :=
  match rows with
  | [] => [record]
  | row :: rows' =>
      if String.ltb (timestamp_of record) (timestamp_of row)
      then record :: rows
      else row :: table_insert record rows'
  end.

(** [table.put_item(Item=record)] *)
Definition table_put (rows : list item) (record : item) : list item :=
  table_insert record (filter (fun row => negb (same_key row record)) rows).

(** [table.query(...)['Items']] for the session *)
Definition table_items (rows : list item) (session_id : string)
    : list item :=
  filter (fun row => String.eqb (session_of row) session_id) rows.

(** [put_log_events] on the stream [session_id], and the events of
    [get_log_events] for a stream *)
Definition stream_put (events : list (string * item)) (session_id : string)
    (record : item) : list (string * item) :=
  events ++ [(session_id, record)].

Definition stream_events (events : list (string * item))
    (session_id : string) : list log_message :=
  map (fun event => Activity (snd event))
    (filter (fun event => String.eqb (fst event) session_id) events).

(** A call of [track_participant_activity], with the reading of the clock
    at line 53. *)
Record call : Type := Call {
  at_clock : string;
  c_participant : string;
  c_activity : string;
  c_details : string;
  c_session : string
}.

(** The [activity] of the call: lines 52 to 58. *)
Definition activity_of_call (c : call) : item :=
  activity_item (at_clock c) (c_participant c) (c_activity c) (c_details c)
    (c_session c).

Definition call_record (c : call) : tracked :=
  Tracked (at_clock c) (c_participant c) (c_activity c) (c_details c).

(** The table and the log stream after a sequence of calls that were
    accepted. *)
Definition table_after (calls : list call) : list item :=
  fold_left (fun rows c => table_put rows (activity_of_call c)) calls [].

Definition stream_after (calls : list call) : list (string * item) :=
  fold_left (fun events c => stream_put events (c_session c)
                               (activity_of_call c)) calls [].

(** The environment of the readers on a table, and on a log stream when
    there is no table. *)
Definition aws_on_table (rows : list item) (clock : string) : aws :=
  {| table_load := Ok tt;
     create_table := Ok tt;
     table_query := fun session_id => Ok (table_items rows session_id);
     logs_client := Ok tt;
     get_log_events := fun _ => Ok [];
     now := clock |}.

Definition aws_on_stream (events : list (string * item)) (clock : string)
    : aws :=
  {| table_load := Raise (ClientError "ResourceNotFoundException");
     create_table := Raise (ClientError "AccessDeniedException");
     table_query := fun _ => Ok [];
     logs_client := Ok tt;
     get_log_events := fun session_id => Ok (stream_events events session_id);
     now := clock |}.

(** The listing [r] has one entry for each participant of [names] and no
    other, each with the number of occurrences of its participant as
    [activity_count]. *)
Definition counts_every_record (r : json) (names : list string) : Prop :=
  exists entries participants,
    field r "participants" = Some (JList entries) /\
    map (fun entry => field entry "name") entries =
      map (fun p => Some (JStr p)) participants /\
    map (fun entry => field entry "activity_count") entries =
      map (fun p => Some (JInt (count p names))) participants /\
    NoDup participants /\
    (forall p, In p participants <-> In p names).

(** Two calls for Alice at one reading of the clock. *)
Definition calls_at_one_reading : list call :=
  [ Call "2024-05-01T09:00:00.250000" "Alice" "question" "IAM roles?" "s1";
    Call "2024-05-01T09:00:00.250000" "Alice" "chat_message" "thanks" "s1" ].


(** ** Dictionaries *)

Section DictFacts.
Context {V : Type}.
Implicit Types (d : dict V) (k : string) (v : V).

Lemma lookup_None_keys d k : lookup d k = None <-> ~ In k (keys d).
Proof.
  induction d as [|[k' v'] d IH]; simpl.
  - tauto.
  - destruct (String.eqb_spec k' k) as [->|Hne].
    + split; [discriminate | intros H; exfalso; apply H; now left].
    + rewrite IH. intuition congruence.
Qed.

Lemma lookup_Some_In d k v : lookup d k = Some v -> In (k, v) d.
Proof.
  induction d as [|[k' v'] d IH]; simpl; [discriminate|].
  destruct (String.eqb_spec k' k) as [->|Hne].
  - intros [= ->]. now left.
  - intros H. right. now apply IH.
Qed.

Lemma In_lookup d k v : NoDup (keys d) -> In (k, v) d -> lookup d k = Some v.
Proof.
  induction d as [|[k' v'] d IH]; simpl; [tauto|].
  intros Hnd [[= -> ->]|Hin].
  - now rewrite String.eqb_refl.
  - inversion Hnd as [|? ? Hnotin Hnd']; subst.
    destruct (String.eqb_spec k' k) as [->|Hne].
    + exfalso. apply Hnotin. change k with (fst (k, v)). now apply in_map.
    + now apply IH.
Qed.

Lemma lookup_setitem_same d k v : lookup (setitem d k v) k = Some v.
Proof.
  induction d as [|[k' v'] d IH]; simpl.
  - now rewrite String.eqb_refl.
  - destruct (String.eqb_spec k' k) as [->|Hne]; simpl.
    + now rewrite String.eqb_refl.
    + apply String.eqb_neq in Hne. now rewrite Hne.
Qed.

Lemma lookup_setitem_other d k k' v :
  k' <> k -> lookup (setitem d k v) k' = lookup d k'.
Proof.
  intros Hne. induction d as [|[k0 v0] d IH]; simpl.
  - apply not_eq_sym, String.eqb_neq in Hne. now rewrite Hne.
  - destruct (String.eqb_spec k0 k) as [->|Hne0]; simpl.
    + apply not_eq_sym, String.eqb_neq in Hne. now rewrite Hne.
    + now rewrite IH.
Qed.

Lemma setitem_absent d k v : lookup d k = None -> setitem d k v = d ++ [(k, v)].
Proof.
  induction d as [|[k' v'] d IH]; simpl; [reflexivity|].
  destruct (String.eqb k' k); [discriminate|].
  intros H. now rewrite IH.
Qed.

Lemma keys_setitem_present d k v v0 :
  lookup d k = Some v0 -> keys (setitem d k v) = keys d.
Proof.
  induction d as [|[k' v'] d IH]; simpl; [discriminate|].
  destruct (String.eqb k' k); simpl; [reflexivity|].
  intros H. f_equal. now apply IH.
Qed.

Lemma keys_setitem_absent d k v :
  lookup d k = None -> keys (setitem d k v) = keys d ++ [k].
Proof.
  intros H. rewrite (setitem_absent _ _ _ H). unfold keys.
  now rewrite map_app.
Qed.

Lemma In_values_lookup d v :
  NoDup (keys d) -> In v (values d) -> exists k, lookup d k = Some v.
Proof.
  intros Hnd Hin. apply in_map_iff in Hin as [[k v'] [E Hin]].
  simpl in E. subst v'. exists k. now apply In_lookup.
Qed.

End DictFacts.

(** ** The counting loop *)

Lemma tally_snoc l a : tally (l ++ [a]) = bump (tally l) a.
Proof. unfold tally. now rewrite fold_left_app. Qed.

Lemma count_snoc k l a :
  count k (l ++ [a]) = count k l + (if String.eqb a k then 1 else 0).
Proof.
  unfold count. rewrite count_occ_app. simpl.
  destruct (string_dec a k) as [->|Hne].
  - rewrite String.eqb_refl. lia.
  - apply String.eqb_neq in Hne. rewrite Hne. lia.
Qed.

Lemma count_pos_In k l : 0 < count k l <-> In k l.
Proof.
  unfold count. rewrite (count_occ_In string_dec). lia.
Qed.

Lemma count_zero_notin k l : count k l = 0 <-> ~ In k l.
Proof.
  unfold count. rewrite (count_occ_not_In string_dec). lia.
Qed.

Lemma tally_get l k : get (tally l) k 0 = count k l.
Proof.
  induction l as [|a l IH] using rev_ind; [reflexivity|].
  rewrite tally_snoc, count_snoc. unfold bump, get in *.
  destruct (String.eqb_spec a k) as [->|Hne].
  - rewrite lookup_setitem_same. lia.
  - rewrite lookup_setitem_other by congruence. lia.
Qed.

Lemma tally_lookup l k :
  lookup (tally l) k = if (count k l =? 0) then None else Some (count k l).
Proof.
  induction l as [|a l IH] using rev_ind; [reflexivity|].
  rewrite tally_snoc, count_snoc. unfold bump.
  destruct (String.eqb_spec a k) as [->|Hne].
  - rewrite lookup_setitem_same, tally_get.
    assert (0 <= count k l) by (unfold count; lia).
    destruct (Z.eqb_spec (count k l + 1) 0); [lia | reflexivity].
  - rewrite lookup_setitem_other by congruence. now rewrite Z.add_0_r.
Qed.

Lemma tally_lookup_In l k : In k l -> lookup (tally l) k = Some (count k l).
Proof.
  intros H. apply count_pos_In in H. rewrite tally_lookup.
  destruct (Z.eqb_spec (count k l) 0); [lia | reflexivity].
Qed.

Lemma tally_lookup_notin l k : ~ In k l -> lookup (tally l) k = None.
Proof.
  intros H. apply count_zero_notin in H. rewrite tally_lookup.
  now rewrite H.
Qed.

Lemma tally_keys_In l k : In k (keys (tally l)) <-> In k l.
Proof.
  destruct (in_dec string_dec k l) as [Hin|Hnotin].
  - split; [trivial|]. intros _.
    destruct (in_dec string_dec k (keys (tally l))) as [|Hno]; [assumption|].
    apply lookup_None_keys in Hno. rewrite tally_lookup_In in Hno by assumption.
    discriminate.
  - split; [|tauto]. intros Hk. exfalso.
    apply tally_lookup_notin in Hnotin. apply lookup_None_keys in Hnotin.
    tauto.
Qed.

Lemma tally_keys_snoc l a :
  keys (tally (l ++ [a])) =
  if in_dec string_dec a l then keys (tally l) else keys (tally l) ++ [a].
Proof.
  rewrite tally_snoc. unfold bump.
  destruct (in_dec string_dec a l) as [Hin|Hnotin].
  - eapply keys_setitem_present. now apply tally_lookup_In.
  - apply keys_setitem_absent. now apply tally_lookup_notin.
Qed.

Lemma tally_keys_NoDup l : NoDup (keys (tally l)).
Proof.
  induction l as [|a l IH] using rev_ind; [constructor|].
  rewrite tally_keys_snoc. destruct (in_dec string_dec a l) as [|Hnotin].
  - assumption.
  - apply NoDup_app; [assumption | |].
    + apply NoDup_cons; [simpl; intros [] | constructor].
    + intros x Hx [<-|[]]. apply Hnotin. now apply tally_keys_In.
Qed.

Lemma tally_len l : len (tally l) = distinct l.
Proof.
  unfold distinct, len. f_equal.
  rewrite <- (length_map fst (tally l)). apply Permutation_length.
  apply NoDup_Permutation.
  - apply tally_keys_NoDup.
  - apply NoDup_nodup.
  - intros k. rewrite nodup_In. apply tally_keys_In.
Qed.

Lemma tally_entry l k v : In (k, v) (tally l) <-> In k l /\ v = count k l.
Proof.
  split.
  - intros Hin. apply In_lookup in Hin; [|apply tally_keys_NoDup].
    destruct (in_dec string_dec k l) as [Hk|Hk].
    + rewrite tally_lookup_In in Hin by assumption. split; congruence.
    + rewrite tally_lookup_notin in Hin by assumption. discriminate.
  - intros [Hk ->]. apply lookup_Some_In. now apply tally_lookup_In.
Qed.

Lemma count_perm k l l' : Permutation l l' -> count k l = count k l'.
Proof.
  intros Hperm. unfold count. f_equal.
  now apply (Permutation_count_occ string_dec).
Qed.

Lemma tally_perm l l' : Permutation l l' -> Permutation (tally l) (tally l').
Proof.
  intros Hperm. apply NoDup_Permutation.
  - eapply NoDup_map_inv, tally_keys_NoDup.
  - eapply NoDup_map_inv, tally_keys_NoDup.
  - intros [k v]. rewrite !tally_entry, (count_perm k l l' Hperm).
    split; intros [Hin ->]; (split; [|reflexivity]).
    + eapply Permutation_in; eassumption.
    + eapply Permutation_in; [symmetry|]; eassumption.
Qed.

Lemma tally_len_perm l l' : Permutation l l' -> len (tally l) = len (tally l').
Proof.
  intros Hperm. unfold len. f_equal.
  now apply Permutation_length, tally_perm.
Qed.

Lemma count_activities_tally activities :
  count_activities activities =
  (tally (map activity_of activities), tally (map participant_of activities)).
Proof.
  unfold count_activities, tally.
  change (@nil (string * Z)) with (fold_left bump (@nil string) []) at 1 2.
  generalize (@nil (string * Z)) at 1 3 as d1.
  generalize (@nil (string * Z)) at 1 2 as d2.
  induction activities as [|a l IH]; intros d2 d1; simpl; [reflexivity|].
  unfold count_activity at 2. simpl. apply IH.
Qed.

(** ** Order of first appearance *)

Lemma first_index_In_lt k l : In k l -> (first_index k l < List.length l)%nat.
Proof.
  induction l as [|x l IH]; simpl; [tauto|].
  destruct (String.eqb_spec x k) as [->|Hne]; [lia|].
  intros [E|Hin]; [congruence|]. apply IH in Hin. lia.
Qed.

Lemma first_index_snoc_In k l a :
  In k l -> first_index k (l ++ [a]) = first_index k l.
Proof.
  induction l as [|x l IH]; simpl; [tauto|].
  destruct (String.eqb_spec x k) as [->|Hne]; [reflexivity|].
  intros [E|Hin]; [congruence|]. now rewrite IH.
Qed.

Lemma first_index_snoc_new a l :
  ~ In a l -> first_index a (l ++ [a]) = List.length l.
Proof.
  induction l as [|x l IH]; simpl.
  - now rewrite String.eqb_refl.
  - intros Hn. destruct (String.eqb_spec x a) as [->|Hne]; [tauto|].
    rewrite IH; tauto.
Qed.

Section StronglySortedFacts.
Context {A : Type}.

Lemma StronglySorted_snoc (R : A -> A -> Prop) l a :
  StronglySorted R l -> Forall (fun x => R x a) l ->
  StronglySorted R (l ++ [a]).
Proof.
  induction 1 as [|x l Hs IH Hx]; intros Hall; simpl.
  - repeat constructor.
  - inversion Hall; subst. constructor; [now apply IH|].
    apply Forall_app. split; [assumption | now constructor].
Qed.

Lemma StronglySorted_In_impl (R R' : A -> A -> Prop) l :
  (forall x y, In x l -> In y l -> R x y -> R' x y) ->
  StronglySorted R l -> StronglySorted R' l.
Proof.
  intros Himpl Hs. induction Hs as [|x l Hs IH Hx]; constructor.
  - apply IH. intros y z Hy Hz. apply Himpl; now right.
  - rewrite Forall_forall in *. intros y Hy.
    apply Himpl; [now left | now right | now apply Hx].
Qed.

Lemma StronglySorted_map {B : Type} (f : B -> A) (R : A -> A -> Prop) l :
  StronglySorted R (map f l) ->
  StronglySorted (fun a b => R (f a) (f b)) l.
Proof.
  induction l as [|x l IH]; simpl; intros Hs; [constructor|].
  inversion Hs; subst. constructor; [now apply IH|].
  now apply Forall_map.
Qed.

Lemma StronglySorted_firstn (R : A -> A -> Prop) n l :
  StronglySorted R l -> StronglySorted R (firstn n l).
Proof.
  intros Hs. revert n. induction Hs as [|x l Hs IH Hx]; intros [|n]; simpl;
    try constructor.
  - apply IH.
  - rewrite Forall_forall in *. intros y Hy. apply Hx.
    rewrite <- (firstn_skipn n l). apply in_or_app. now left.
Qed.

End StronglySortedFacts.

Lemma tally_keys_first_seen l :
  StronglySorted (seen_before l) (keys (tally l)).
Proof.
  induction l as [|a l IH] using rev_ind; [constructor|].
  assert (Hold : StronglySorted (seen_before (l ++ [a])) (keys (tally l))).
  { revert IH. apply StronglySorted_In_impl. unfold seen_before.
    intros p q Hp Hq.
    apply (proj1 (tally_keys_In _ _)) in Hp, Hq.
    now rewrite !first_index_snoc_In. }
  rewrite tally_keys_snoc. destruct (in_dec string_dec a l) as [|Hnew].
  - exact Hold.
  - apply StronglySorted_snoc; [exact Hold|].
    apply Forall_forall. intros p Hp. unfold seen_before.
    apply (proj1 (tally_keys_In _ _)) in Hp.
    rewrite first_index_snoc_In, first_index_snoc_new by assumption.
    now apply first_index_In_lt.
Qed.

(** ** The stable descending sort *)

Section SortedFacts.
Context {A : Type} (key : A -> Z) (before : A -> A -> Prop).

Lemma insert_desc_perm x l : Permutation (insert_desc key x l) (x :: l).
Proof.
  induction l as [|y l IH]; simpl; [reflexivity|].
  destruct (key x <? key y); [|reflexivity].
  rewrite IH. apply perm_swap.
Qed.

Lemma sorted_reverse_perm l : Permutation (sorted_reverse key l) l.
Proof.
  induction l as [|x l IH]; simpl; [reflexivity|].
  rewrite insert_desc_perm. now constructor.
Qed.

Lemma ranked_key_le x y : ranked key before x y -> key y <= key x.
Proof. unfold ranked. lia. Qed.

Lemma insert_desc_ranked x l :
  Forall (before x) l ->
  StronglySorted (ranked key before) l ->
  StronglySorted (ranked key before) (insert_desc key x l).
Proof.
  induction l as [|y l IH]; intros Hb Hs; simpl.
  - repeat constructor.
  - inversion Hb as [|? ? Hxy Hb']; subst.
    inversion Hs as [|? ? Hs' Hy]; subst.
    destruct (Z.ltb_spec (key x) (key y)) as [Hlt|Hge].
    + constructor; [now apply IH|].
      eapply Permutation_Forall; [symmetry; apply insert_desc_perm|].
      constructor; [now left | assumption].
    + constructor; [assumption|].
      rewrite Forall_forall in *. intros z Hz.
      assert (Hle : key z <= key y).
      { destruct Hz as [<-|Hz]; [lia | now apply ranked_key_le, Hy]. }
      assert (Hbz : before x z).
      { destruct Hz as [<-|Hz]; [assumption | now apply Hb']. }
      unfold ranked. destruct (Z.eq_dec (key x) (key z)); [now right | left; lia].
Qed.

Lemma sorted_reverse_ranked l :
  StronglySorted before l ->
  StronglySorted (ranked key before) (sorted_reverse key l).
Proof.
  induction 1 as [|x l Hs IH Hx]; simpl; [constructor|].
  apply insert_desc_ranked; [|assumption].
  eapply Permutation_Forall; [symmetry; apply sorted_reverse_perm | assumption].
Qed.

End SortedFacts.

(** ** Running the two operations *)

Lemma analytics_returns w sid acts :
  read_activities w sid = Ok acts ->
  get_engagement_analytics w sid = Ok (analytics_report w sid acts).
Proof. unfold get_engagement_analytics. now intros ->. Qed.

Lemma analytics_fails w sid e :
  read_activities w sid = Raise e ->
  get_engagement_analytics w sid = Ok (analytics_failure w e).
Proof. unfold get_engagement_analytics. now intros ->. Qed.

Lemma analytics_report_tally w sid acts :
  analytics_report w sid acts =
  let activity_types := tally (map activity_of acts) in
  let participant_activity := tally (map participant_of acts) in
  let score := engagement_score (len acts) (len participant_activity) in
  JObj [ ("total_activities", JInt (len acts));
         ("unique_participants", JInt (len participant_activity));
         ("engagement_score", JInt score);
         ("activity_breakdown", counts_json activity_types);
         ("top_participants",
          counts_json (top_participants participant_activity));
         ("recommendations",
          JList (map JStr
                   (recommend score (get activity_types "question" 0)
                      (get activity_types "chat_message" 0))));
         ("session_id", JStr sid);
         ("timestamp", JStr (now w)) ].
Proof.
  unfold analytics_report. now rewrite count_activities_tally.
Qed.

Lemma tracked_participant sid t :
  participant_of (tracked_item sid t) = t_participant t.
Proof. reflexivity. Qed.

Lemma tracked_activity sid t :
  activity_of (tracked_item sid t) = t_activity t.
Proof. reflexivity. Qed.

Lemma fold_item_tracked sid participants t :
  fold_item participants (tracked_item sid t) = Ok (upsert participants t).
Proof.
  unfold fold_item, tracked_item, activity_item, getitem. simpl.
  unfold note_activity, upsert, getitem. simpl.
  now destruct (lookup participants (t_participant t)).
Qed.

Lemma for_each_tracked sid recs participants :
  for_each fold_item (map (tracked_item sid) recs) participants =
  Ok (fold_left upsert recs participants).
Proof.
  revert participants. induction recs as [|t recs IH]; intros ps; simpl.
  - reflexivity.
  - rewrite fold_item_tracked. simpl. apply IH.
Qed.

Lemma fold_item_raises participants record e :
  fold_item participants record = Raise e -> is_ClientError e = false.
Proof.
  unfold fold_item, note_activity, getitem.
  destruct (lookup record "participant"); simpl; [|now intros [= <-]].
  destruct (lookup participants s);
    destruct (lookup record "timestamp"); simpl; try discriminate;
    now intros [= <-].
Qed.

Lemma for_each_fold_item_raises records participants e :
  for_each fold_item records participants = Raise e ->
  is_ClientError e = false.
Proof.
  revert participants. induction records as [|r l IH]; intros ps; simpl.
  - discriminate.
  - destruct (fold_item ps r) as [ps'|e'] eqn:E; simpl.
    + apply IH.
    + intros [= <-]. eapply fold_item_raises, E.
Qed.

Lemma for_each_fold_event events participants :
  for_each fold_event events participants =
  for_each fold_item (decode_events events) participants.
Proof.
  revert participants.
  induction events as [|[|activity] events IH]; intros ps; simpl.
  - reflexivity.
  - apply IH.
  - destruct (fold_item ps activity); simpl; [apply IH | reflexivity].
Qed.

(** Both operations read the same records. *)
Lemma collect_participants_read w sid :
  collect_participants w sid =
  (acts <- read_activities w sid ;; for_each fold_item acts []).
Proof.
  unfold collect_participants, read_activities.
  destruct (get_dynamodb_table w) as [[tbl|]|e]; simpl; try reflexivity.
  destruct (logs_client w) as [[]|e]; simpl; try reflexivity.
  destruct (get_log_events w sid) as [events|e]; simpl.
  - rewrite for_each_fold_event.
    destruct (for_each fold_item (decode_events events) []) as [ps|e] eqn:E;
      simpl; [reflexivity|].
    now rewrite (for_each_fold_item_raises _ _ _ E).
  - now destruct (is_ClientError e).
Qed.

Lemma participants_returns w sid recs :
  read_activities w sid = Ok (map (tracked_item sid) recs) ->
  get_participants w sid = Ok (participants_report w sid (replay recs)).
Proof.
  intros Hread. unfold get_participants.
  rewrite collect_participants_read, Hread. simpl.
  now rewrite for_each_tracked.
Qed.

Lemma participants_never_raises w sid :
  exists r, get_participants w sid = Ok r.
Proof.
  unfold get_participants.
  destruct (collect_participants w sid); simpl; eauto.
Qed.

Lemma analytics_never_raises w sid :
  exists r, get_engagement_analytics w sid = Ok r.
Proof.
  unfold get_engagement_analytics.
  destruct (read_activities w sid); simpl; eauto.
Qed.

(** *** The operations on sample environments *)

Example analytics_of_three_records :
  get_engagement_analytics
    (table_with (map (tracked_item "s1") three_records)) "s1" =
  Ok (JObj
        [ ("total_activities", JInt 3);
          ("unique_participants", JInt 2);
          ("engagement_score", JInt 26);
          ("activity_breakdown",
           JObj [("question", JInt 1); ("chat_message", JInt 2)]);
          ("top_participants", JObj [("Alice", JInt 2); ("Bob", JInt 1)]);
          ("recommendations",
           JList
             [ JStr "Low engagement - consider encouraging more participation";
               JStr "Few questions - consider prompting for questions";
               JStr "Encourage more chat participation" ]);
          ("session_id", JStr "s1");
          ("timestamp", JStr "2024-05-01T12:00:00.000000") ]).
Proof. reflexivity. Qed.

Example participants_of_three_records :
  get_participants
    (table_with (map (tracked_item "s1") three_records)) "s1" =
  Ok (JObj
        [ ("total_participants", JInt 2);
          ("participants",
           JList
             [ JObj [ ("name", JStr "Alice");
                      ("status", JStr "active");
                      ("join_time", JStr "2024-05-01T09:00:00.000000");
                      ("activity_count", JInt 2);
                      ("last_activity", JStr "2024-05-01T09:07:30.000000") ];
               JObj [ ("name", JStr "Bob");
                      ("status", JStr "active");
                      ("join_time", JStr "2024-05-01T09:05:00.000000");
                      ("activity_count", JInt 1);
                      ("last_activity", JStr "2024-05-01T09:05:00.000000") ] ]);
          ("active_count", JInt 2);
          ("timestamp", JStr "2024-05-01T12:00:00.000000");
          ("session_id", JStr "s1") ]).
Proof. reflexivity. Qed.

Example analytics_of_failing_table :
  get_engagement_analytics
    (table_failing (ClientError "ProvisionedThroughputExceededException"))
    "s1" =
  Ok (JObj
        [ ("total_activities", JInt 0);
          ("unique_participants", JInt 0);
          ("engagement_score", JInt 0);
          ("error",
           JStr "Analytics generation failed: ProvisionedThroughputExceededException");
          ("timestamp", JStr "2024-05-01T12:00:00.000000") ]).
Proof. reflexivity. Qed.

(** An item without timestamp makes the listing fail with the [KeyError];
    the analytics count it all the same. *)
Example participants_of_item_without_timestamp :
  get_participants (table_with [[("participant", "Alice")]]) "s1" =
  Ok (JObj
        [ ("total_participants", JInt 0);
          ("participants", JList []);
          ("active_count", JInt 0);
          ("error", JStr "Failed to get participants: 'timestamp'");
          ("timestamp", JStr "2024-05-01T12:00:00.000000") ]).
Proof. reflexivity. Qed.

(** Equal counts keep the order of first appearance, and only five entries
    are kept. *)
Example top_participants_of_ties :
  top_participants (tally ["b"; "a"; "c"; "a"; "b"; "d"; "e"; "f"; "f"; "f"]) =
  [("f", 3); ("b", 2); ("a", 2); ("c", 1); ("d", 1)].
Proof. reflexivity. Qed.

(** ** Replaying the records of a session *)

Lemma replay_snoc l t : replay (l ++ [t]) = upsert (replay l) t.
Proof. unfold replay. now rewrite fold_left_app. Qed.

Lemma find_snoc {A : Type} (f : A -> bool) l a :
  List.find f (l ++ [a]) =
  match List.find f l with
  | Some x => Some x
  | None => if f a then Some a else None
  end.
Proof.
  induction l as [|x l IH]; simpl; [reflexivity|].
  now destruct (f x).
Qed.

Lemma find_rev_None {A : Type} (f : A -> bool) l :
  List.find f l = None -> List.find f (rev l) = None.
Proof.
  intros Hnone. destruct (List.find f (rev l)) as [x|] eqn:E; [|reflexivity].
  apply find_some in E as [Hin Hf]. apply in_rev in Hin.
  rewrite (find_none _ _ Hnone _ Hin) in Hf. discriminate.
Qed.

Lemma find_None_count p l :
  List.find (by_participant p) l = None -> count p (map t_participant l) = 0.
Proof.
  intros Hnone. apply count_zero_notin. intros Hin.
  apply in_map_iff in Hin as [t [E Hin]].
  pose proof (find_none _ _ Hnone _ Hin) as Hf. unfold by_participant in Hf.
  rewrite E, String.eqb_refl in Hf. discriminate.
Qed.

Lemma lookup_upsert_other d t p :
  t_participant t <> p -> lookup (upsert d t) p = lookup d p.
Proof.
  intros Hne. unfold upsert.
  destruct (lookup d (t_participant t));
    now rewrite lookup_setitem_other by congruence.
Qed.

(** What the participants hold for [p] after the records [l]. *)
Lemma replay_lookup l p :
  lookup (replay l) p =
  match List.find (by_participant p) l, List.find (by_participant p) (rev l) with
  | Some first, Some last =>
      Some (Summary p "active" (t_timestamp first)
              (count p (map t_participant l)) (t_timestamp last))
  | _, _ => None
  end.
Proof.
  induction l as [|t l IH] using rev_ind; [reflexivity|].
  rewrite replay_snoc, find_snoc, rev_app_distr, map_app.
  cbn [rev app map List.find]. rewrite count_snoc.
  change (String.eqb (t_participant t) p) with (by_participant p t).
  destruct (by_participant p t) eqn:Hb.
  - assert (E : t_participant t = p) by now apply String.eqb_eq.
    unfold upsert. rewrite E, IH.
    destruct (List.find (by_participant p) l) as [first|] eqn:E1.
    + destruct (List.find (by_participant p) (rev l)) as [last|] eqn:E2.
      * now rewrite lookup_setitem_same.
      * apply find_rev_None in E2. rewrite rev_involutive in E2. congruence.
    + rewrite lookup_setitem_same, (find_None_count _ _ E1). reflexivity.
  - assert (Hne : t_participant t <> p) by now apply String.eqb_neq.
    rewrite lookup_upsert_other, IH, Z.add_0_r by assumption.
    now destruct (List.find (by_participant p) l).
Qed.

Lemma replay_lookup_Some l p s :
  lookup (replay l) p = Some s ->
  exists first last,
    List.find (by_participant p) l = Some first /\
    List.find (by_participant p) (rev l) = Some last /\
    s = Summary p "active" (t_timestamp first)
          (count p (map t_participant l)) (t_timestamp last).
Proof.
  rewrite replay_lookup.
  destruct (List.find (by_participant p) l) as [first|]; [|discriminate].
  destruct (List.find (by_participant p) (rev l)) as [last|]; [|discriminate].
  intros [= <-]. now exists first, last.
Qed.

Lemma replay_keys_In l p :
  In p (keys (replay l)) <-> In p (map t_participant l).
Proof.
  split.
  - intros Hin. destruct (lookup (replay l) p) as [s|] eqn:E.
    + apply replay_lookup_Some in E as (first & _ & Hfirst & _).
      apply find_some in Hfirst as [Hin' Hp]. unfold by_participant in Hp.
      apply String.eqb_eq in Hp. subst p. now apply in_map.
    + apply lookup_None_keys in E. tauto.
  - intros Hin. destruct (lookup (replay l) p) as [s|] eqn:E.
    + apply lookup_Some_In in E. change p with (fst (p, s)). now apply in_map.
    + exfalso. rewrite replay_lookup in E.
      destruct (List.find (by_participant p) l) as [first|] eqn:E1.
      * destruct (List.find (by_participant p) (rev l)) eqn:E2; [discriminate|].
        apply find_rev_None in E2. rewrite rev_involutive in E2. congruence.
      * apply find_None_count, count_zero_notin in E1. tauto.
Qed.

Lemma upsert_keys_NoDup d t : NoDup (keys d) -> NoDup (keys (upsert d t)).
Proof.
  intros Hnd. unfold upsert.
  destruct (lookup d (t_participant t)) as [s|] eqn:E.
  - now rewrite (keys_setitem_present _ _ _ _ E).
  - rewrite (keys_setitem_absent _ _ _ E).
    apply NoDup_app; [assumption | |].
    + apply NoDup_cons; [simpl; tauto | constructor].
    + intros x Hx [<-|[]]. apply lookup_None_keys in E. tauto.
Qed.

Lemma replay_keys_NoDup l : NoDup (keys (replay l)).
Proof.
  induction l as [|t l IH] using rev_ind; [constructor|].
  rewrite replay_snoc. now apply upsert_keys_NoDup.
Qed.

Lemma replay_names l : map name (values (replay l)) = keys (replay l).
Proof.
  unfold values, keys. rewrite map_map. apply map_ext_in.
  intros [k s] Hin. simpl.
  apply In_lookup in Hin; [|apply replay_keys_NoDup].
  apply replay_lookup_Some in Hin as (first & last & _ & _ & ->).
  reflexivity.
Qed.

Lemma replay_values_In l s :
  In s (values (replay l)) ->
  exists first last,
    List.find (by_participant (name s)) l = Some first /\
    List.find (by_participant (name s)) (rev l) = Some last /\
    s = Summary (name s) "active" (t_timestamp first)
          (count (name s) (map t_participant l)) (t_timestamp last).
Proof.
  intros Hin. apply In_values_lookup in Hin as [k Hk];
    [|apply replay_keys_NoDup].
  apply replay_lookup_Some in Hk as (first & last & H1 & H2 & E).
  assert (Hname : name s = k) by now rewrite E.
  rewrite Hname. now exists first, last.
Qed.

Lemma replay_len l : len (values (replay l)) = distinct (map t_participant l).
Proof.
  unfold distinct, len. f_equal.
  rewrite <- (length_map name), replay_names. apply Permutation_length.
  apply NoDup_Permutation.
  - apply replay_keys_NoDup.
  - apply NoDup_nodup.
  - intros k. rewrite nodup_In. apply replay_keys_In.
Qed.

Lemma replay_all_active l :
  filter (fun p => String.eqb (status p) "active") (values (replay l)) =
  values (replay l).
Proof.
  apply forallb_filter_id. apply forallb_forall. intros s Hin.
  apply replay_values_In in Hin as (first & last & _ & _ & ->).
  reflexivity.
Qed.

(** ** Order of timestamps *)

Lemma ts_le_iff a b : ts_le a b <-> a = b \/ String_as_OT.lt a b.
Proof.
  unfold ts_le, String.leb.
  destruct (String.compare a b) eqn:E.
  - apply String_as_OT.cmp_eq in E. tauto.
  - apply String_as_OT.cmp_lt in E. tauto.
  - split; [discriminate|]. intros [Heq|Hlt].
    + apply String_as_OT.cmp_eq in Heq. unfold String_as_OT.cmp in Heq.
      congruence.
    + apply String_as_OT.cmp_lt in Hlt. unfold String_as_OT.cmp in Hlt.
      congruence.
Qed.

Lemma ts_le_refl a : ts_le a a.
Proof. apply ts_le_iff. now left. Qed.

Lemma ts_le_trans a b c : ts_le a b -> ts_le b c -> ts_le a c.
Proof.
  rewrite !ts_le_iff. intros [->|Hab] [->|Hbc]; auto.
  right. eapply String_as_OT.lt_trans; eassumption.
Qed.

Section FirstAndLast.
Context {A : Type} (R : A -> A -> Prop) (f : A -> bool).
Hypothesis R_refl : forall x, R x x.


Lemma find_is_least l x y :
  StronglySorted R l -> List.find f l = Some x -> In y l -> f y = true ->
  R x y.
Proof.
  induction 1 as [|x0 l Hs IH Hx]; simpl; [discriminate|].
  destruct (f x0) eqn:Hf.
  - intros [= <-] [<-|Hin] _; [apply R_refl|].
    rewrite Forall_forall in Hx. now apply Hx.
  - intros Hfind [<-|Hin] Hy; [congruence|]. now apply IH.
Qed.

End FirstAndLast.


Lemma chronological recs :
  Sorted ts_le (map t_timestamp recs) ->
  StronglySorted (fun a b => ts_le (t_timestamp a) (t_timestamp b)) recs.
Proof.
  intros Hs. apply StronglySorted_map, Sorted_StronglySorted; [|assumption].
  intros a b c. apply ts_le_trans.
Qed.

(** ** The engagement score *)

Lemma distinct_snoc l a :
  distinct l <= distinct (l ++ [a]) <= distinct l + 1.
Proof.
  rewrite <- !tally_len. unfold len.
  rewrite <- !(length_map fst). fold (keys (tally l)).
  fold (keys (tally (l ++ [a]))). rewrite tally_keys_snoc.
  destruct (in_dec string_dec a l); [lia|].
  rewrite length_app. simpl. lia.
Qed.

Lemma engagement_score_bounds total unique :
  0 <= total -> 0 <= unique -> 0 <= engagement_score total unique <= 100.
Proof. unfold engagement_score. lia. Qed.

Lemma engagement_score_mono total unique total' unique' :
  total <= total' -> unique <= unique' ->
  engagement_score total unique <= engagement_score total' unique'.
Proof. unfold engagement_score. lia. Qed.

Lemma len_nonneg {A : Type} (l : list A) : 0 <= len l.
Proof. unfold len. lia. Qed.

Lemma len_snoc {A : Type} (l : list A) a : len (l ++ [a]) = len l + 1.
Proof. unfold len. rewrite length_app. simpl. lia. Qed.

(** C1.  Whatever the store answers, the report of
    [get_engagement_analytics] carries
    [engagement_score = min(100, total_activities*2 + unique_participants*10)].
    When the records are read, [total_activities] is their number and
    [unique_participants] the number of distinct participant names that
    they carry in their ["participant"] entry (a record without that entry
    goes under ["unknown"]): for records as [track_participant_activity]
    writes them, the number of distinct participants tracked.  When the
    read raises, both counts are reported as 0. *)
Theorem engagement_score_formula (w : aws) (sid : string) :
  exists r total unique,
    get_engagement_analytics w sid = Ok r /\
    field r "total_activities" = Some (JInt total) /\
    field r "unique_participants" = Some (JInt unique) /\
    field r "engagement_score" =
      Some (JInt (Z.min 100 (total * 2 + unique * 10))) /\
    match read_activities w sid with
    | Ok acts =>
        total = len acts /\
        unique = distinct (map recorded_participant acts) /\
        (forall recs,
           acts = map (tracked_item sid) recs ->
           total = len recs /\ unique = distinct (map t_participant recs))
    | Raise _ => total = 0 /\ unique = 0
    end.
Proof.
  destruct (read_activities w sid) as [acts|e] eqn:Hread.
  - exists (analytics_report w sid acts), (len acts),
      (distinct (map recorded_participant acts)).
    split; [now apply analytics_returns|].
    rewrite analytics_report_tally. cbv zeta.
    change (map participant_of acts) with (map recorded_participant acts).
    rewrite tally_len.
    split; [reflexivity|]. split; [reflexivity|]. split; [reflexivity|].
    split; [reflexivity|]. split; [reflexivity|].
    intros recs ->. rewrite map_map. split.
    + unfold len. now rewrite length_map.
    + reflexivity.
  - exists (analytics_failure w e), 0, 0.
    split; [now apply analytics_fails|].
    repeat split; reflexivity.
Qed.

(** On the table that holds the scenario of Alice and Bob: 17 records of 2
    participants, and the score 54. *)
Lemma engagement_score_formula_witness :
  exists r,
    get_engagement_analytics
      (table_with (map (tracked_item "s1") scenario)) "s1" = Ok r /\
    field r "total_activities" = Some (JInt 17) /\
    field r "unique_participants" = Some (JInt 2) /\
    field r "engagement_score" = Some (JInt 54).
Proof.
  destruct (engagement_score_formula
              (table_with (map (tracked_item "s1") scenario)) "s1")
    as (r & total & unique & Hr & Htotal & Hunique & Hscore & Hcounts).
  cbn [read_activities table_with get_dynamodb_table table_load bind
       try_except table_query] in Hcounts.
  destruct Hcounts as (_ & _ & Hrecs).
  destruct (Hrecs scenario eq_refl) as [-> ->].
  exists r. repeat split; assumption.
Defined.

(** C6.  Appending a record to the records of a session never lowers the
    engagement score of the report, and the score never exceeds 100. *)
Theorem engagement_score_monotone (w w' : aws) (sid : string)
    (acts : list item) (a : item) :
  read_activities w sid = Ok acts ->
  read_activities w' sid = Ok (acts ++ [a]) ->
  exists r r' s s',
    get_engagement_analytics w sid = Ok r /\
    get_engagement_analytics w' sid = Ok r' /\
    field r "engagement_score" = Some (JInt s) /\
    field r' "engagement_score" = Some (JInt s') /\
    s <= s' /\ s <= 100 /\ s' <= 100.
Proof.
  intros Hread Hread'.
  exists (analytics_report w sid acts), (analytics_report w' sid (acts ++ [a])).
  rewrite !analytics_report_tally. cbv zeta.
  eexists. eexists.
  split; [rewrite <- analytics_report_tally; now apply analytics_returns|].
  split; [rewrite <- analytics_report_tally; now apply analytics_returns|].
  split; [reflexivity|]. split; [reflexivity|].
  rewrite !tally_len, map_app, len_snoc. simpl map.
  pose proof (distinct_snoc (map participant_of acts) (participant_of a))
    as [Hunique _].
  pose proof (len_nonneg acts) as Htotal.
  assert (Hdistinct : 0 <= distinct (map participant_of acts))
    by apply len_nonneg.
  split; [apply engagement_score_mono; lia|].
  split; apply engagement_score_bounds; lia.
Qed.

Lemma engagement_score_monotone_witness :
  exists r r' s s',
    get_engagement_analytics
      (table_with (map (tracked_item "s1") three_records)) "s1" = Ok r /\
    get_engagement_analytics
      (table_with (map (tracked_item "s1") three_records ++
                   [tracked_item "s1"
                      (Tracked "2024-05-01T09:09:00.000000" "Carol"
                         "question" "")])) "s1" = Ok r' /\
    field r "engagement_score" = Some (JInt s) /\
    field r' "engagement_score" = Some (JInt s') /\
    s <= s' /\ s <= 100 /\ s' <= 100.
Proof.
  apply (engagement_score_monotone
           (table_with (map (tracked_item "s1") three_records))
           (table_with (map (tracked_item "s1") three_records ++
                        [tracked_item "s1"
                           (Tracked "2024-05-01T09:09:00.000000" "Carol"
                              "question" "")]))
           "s1"
           (map (tracked_item "s1") three_records)
           (tracked_item "s1"
              (Tracked "2024-05-01T09:09:00.000000" "Carol" "question" "")));
    reflexivity.
Defined.

(** The same holds for a record that the store puts anywhere among the
    others. *)
Remark engagement_score_insertion (w w' : aws) (sid : string)
    (before after : list item) (a : item) :
  read_activities w sid = Ok (before ++ after) ->
  read_activities w' sid = Ok (before ++ a :: after) ->
  exists s s',
    get_engagement_analytics w sid =
      Ok (analytics_report w sid (before ++ after)) /\
    get_engagement_analytics w' sid =
      Ok (analytics_report w' sid (before ++ a :: after)) /\
    field (analytics_report w sid (before ++ after)) "engagement_score" =
      Some (JInt s) /\
    field (analytics_report w' sid (before ++ a :: after)) "engagement_score" =
      Some (JInt s') /\
    s <= s' <= 100.
Proof.
  intros Hread Hread'.
  rewrite !analytics_report_tally. cbv zeta.
  eexists. eexists.
  split; [rewrite <- analytics_report_tally; now apply analytics_returns|].
  split; [rewrite <- analytics_report_tally; now apply analytics_returns|].
  split; [reflexivity|]. split; [reflexivity|].
  assert (Hperm : Permutation (before ++ a :: after) ((before ++ after) ++ [a])).
  { rewrite <- Permutation_middle. apply Permutation_cons_append. }
  rewrite (tally_len_perm _ _ (Permutation_map participant_of Hperm)).
  replace (len (before ++ a :: after)) with (len ((before ++ after) ++ [a]))
    by (unfold len; now rewrite (Permutation_length Hperm)).
  rewrite (map_app participant_of (before ++ after) [a]).
  cbn [map]. rewrite !tally_len, len_snoc.
  pose proof (distinct_snoc (map participant_of (before ++ after))
                (participant_of a)) as [Hunique _].
  pose proof (len_nonneg (before ++ after)) as Htotal.
  assert (Hdistinct : 0 <= distinct (map participant_of (before ++ after)))
    by apply len_nonneg.
  split; [apply engagement_score_mono; lia|].
  apply engagement_score_bounds; lia.
Qed.

(** C7.  On a session without activity records the report has
    [engagement_score], [total_activities] and [unique_participants] 0 and
    its recommendations are the three low-engagement lines. *)
Theorem empty_session_report (w : aws) (sid : string) :
  read_activities w sid = Ok [] ->
  exists r,
    get_engagement_analytics w sid = Ok r /\
    field r "engagement_score" = Some (JInt 0) /\
    field r "total_activities" = Some (JInt 0) /\
    field r "unique_participants" = Some (JInt 0) /\
    field r "recommendations" =
      Some (JList
              [ JStr "Low engagement - consider encouraging more participation";
                JStr "Few questions - consider prompting for questions";
                JStr "Encourage more chat participation" ]).
Proof.
  intros Hread. exists (analytics_report w sid []).
  split; [now apply analytics_returns|].
  repeat split; reflexivity.
Qed.

Lemma empty_session_report_witness :
  exists r,
    get_engagement_analytics (table_with []) "s1" = Ok r /\
    field r "engagement_score" = Some (JInt 0) /\
    field r "total_activities" = Some (JInt 0) /\
    field r "unique_participants" = Some (JInt 0) /\
    field r "recommendations" =
      Some (JList
              [ JStr "Low engagement - consider encouraging more participation";
                JStr "Few questions - consider prompting for questions";
                JStr "Encourage more chat participation" ]).
Proof.
  apply (empty_session_report (table_with []) "s1"). reflexivity.
Defined.

(** ** The ranking of participants *)

Lemma ranking_sorted names :
  StronglySorted (ranks_before names) (sorted_reverse snd (tally names)).
Proof.
  unfold ranks_before. apply sorted_reverse_ranked.
  apply StronglySorted_map. fold (keys (tally names)).
  apply tally_keys_first_seen.
Qed.

Lemma In_firstn {A : Type} n (l : list A) x : In x (firstn n l) -> In x l.
Proof.
  intros Hin. rewrite <- (firstn_skipn n l). apply in_or_app. now left.
Qed.

(** C5.  The ranking [top_participants] of the report has at most 5
    entries (5, or all participants when they are fewer), each one a
    participant with the number of the records of that participant; the
    entries are in descending order of that number, and of two entries with
    the same number the one whose participant appears first in the record
    sequence comes first.  The entries are the head of the ranking of all
    participants in that order. *)
Theorem top_participants_ranking (w : aws) (sid : string) (acts : list item) :
  read_activities w sid = Ok acts ->
  let names := map participant_of acts in
  exists r top,
    get_engagement_analytics w sid = Ok r /\
    field r "top_participants" = Some (counts_json top) /\
    (List.length top <= 5)%nat /\
    len top = Z.min 5 (distinct names) /\
    (forall p c, In (p, c) top -> In p names /\ c = count p names) /\
    StronglySorted (fun a b => snd b <= snd a) top /\
    StronglySorted (ranks_before names) top /\
    exists rest,
      Permutation (top ++ rest) (tally names) /\
      StronglySorted (ranks_before names) (top ++ rest).
Proof.
  intros Hread names.
  exists (analytics_report w sid acts), (top_participants (tally names)).
  split; [now apply analytics_returns|].
  split; [now rewrite analytics_report_tally|].
  unfold top_participants, items.
  assert (Htop : StronglySorted (ranks_before names)
                   (firstn 5 (sorted_reverse snd (tally names)))).
  { apply StronglySorted_firstn, ranking_sorted. }
  split; [apply firstn_le_length|].
  split.
  { rewrite <- tally_len. unfold len.
    rewrite length_firstn, (Permutation_length (sorted_reverse_perm snd _)).
    lia. }
  split.
  { intros p c Hin. apply tally_entry.
    eapply Permutation_in; [apply sorted_reverse_perm|].
    eapply In_firstn, Hin. }
  split.
  { revert Htop. apply StronglySorted_In_impl.
    intros a b _ _. apply ranked_key_le. }
  split; [exact Htop|].
  exists (skipn 5 (sorted_reverse snd (tally names))).
  rewrite firstn_skipn.
  split; [apply sorted_reverse_perm | apply ranking_sorted].
Qed.

Lemma top_participants_ranking_witness :
  let names := ["Alice"; "Bob"; "Alice"] in
  exists r top,
    get_engagement_analytics
      (table_with (map (tracked_item "s1") three_records)) "s1" = Ok r /\
    field r "top_participants" = Some (counts_json top) /\
    (List.length top <= 5)%nat /\
    len top = Z.min 5 (distinct names) /\
    (forall p c, In (p, c) top -> In p names /\ c = count p names) /\
    StronglySorted (fun a b => snd b <= snd a) top /\
    StronglySorted (ranks_before names) top /\
    exists rest,
      Permutation (top ++ rest) (tally names) /\
      StronglySorted (ranks_before names) (top ++ rest).
Proof.
  apply (top_participants_ranking
           (table_with (map (tracked_item "s1") three_records)) "s1"
           (map (tracked_item "s1") three_records)).
  reflexivity.
Defined.

(** ** The recommendations *)

(** C9.  On the success path the recommendations of the report are 1 to 3
    lines, and the last of them is the one line of the chat rule: "Good
    chat interaction" or "Encourage more chat participation"; the lines
    before it are not chat lines. *)
Theorem recommendations_never_empty (w : aws) (sid : string)
    (acts : list item) :
  read_activities w sid = Ok acts ->
  exists r lines earlier chat,
    get_engagement_analytics w sid = Ok r /\
    field r "recommendations" = Some (JList (map JStr lines)) /\
    (1 <= List.length lines <= 3)%nat /\
    lines = earlier ++ [chat] /\
    (chat = "Good chat interaction" \/
     chat = "Encourage more chat participation") /\
    ~ In "Good chat interaction" earlier /\
    ~ In "Encourage more chat participation" earlier.
Proof.
  intros Hread. exists (analytics_report w sid acts).
  rewrite analytics_report_tally. cbv zeta.
  set (score := engagement_score _ _).
  set (question_count := get _ "question" 0).
  set (chat_count := get _ "chat_message" 0).
  exists (recommend score question_count chat_count).
  exists (removelast (recommend score question_count chat_count)).
  exists (last (recommend score question_count chat_count) "").
  split.
  { subst score question_count chat_count.
    rewrite <- analytics_report_tally. now apply analytics_returns. }
  split; [reflexivity|].
  unfold recommend.
  destruct (70 <? score), (score <? 30), (5 <? question_count),
    (question_count <? 2), (10 <? chat_count); simpl;
    (split; [lia|]); (split; [reflexivity|]);
    (split; [tauto|]); split; intuition discriminate.
Qed.

Lemma recommendations_never_empty_witness :
  exists r lines earlier chat,
    get_engagement_analytics
      (table_with (map (tracked_item "s1") three_records)) "s1" = Ok r /\
    field r "recommendations" = Some (JList (map JStr lines)) /\
    (1 <= List.length lines <= 3)%nat /\
    lines = earlier ++ [chat] /\
    (chat = "Good chat interaction" \/
     chat = "Encourage more chat participation") /\
    ~ In "Good chat interaction" earlier /\
    ~ In "Encourage more chat participation" earlier.
Proof.
  apply (recommendations_never_empty
           (table_with (map (tracked_item "s1") three_records)) "s1"
           (map (tracked_item "s1") three_records)).
  reflexivity.
Defined.

(** ** Failure reports *)

(** C10.  When the operation fails, the report holds the three counts, all
    0, the description of the error and the timestamp, and nothing else:
    there is no [activity_breakdown], no [top_participants] and no
    [recommendations]; the report of a success has all three. *)
Theorem failure_report_shape (w : aws) (sid : string) :
  exists r,
    get_engagement_analytics w sid = Ok r /\
    match read_activities w sid with
    | Raise e =>
        field_names r =
          [ "total_activities"; "unique_participants"; "engagement_score";
            "error"; "timestamp" ] /\
        field r "total_activities" = Some (JInt 0) /\
        field r "unique_participants" = Some (JInt 0) /\
        field r "engagement_score" = Some (JInt 0) /\
        field r "error" =
          Some (JStr ("Analytics generation failed: " ++ str e)) /\
        field r "timestamp" = Some (JStr (now w)) /\
        field r "activity_breakdown" = None /\
        field r "top_participants" = None /\
        field r "recommendations" = None
    | Ok _ =>
        field r "error" = None /\
        field r "activity_breakdown" <> None /\
        field r "top_participants" <> None /\
        field r "recommendations" <> None
    end.
Proof.
  destruct (read_activities w sid) as [acts|e] eqn:Hread.
  - exists (analytics_report w sid acts).
    split; [now apply analytics_returns|].
    rewrite analytics_report_tally. cbv zeta.
    repeat split; try reflexivity; discriminate.
  - exists (analytics_failure w e).
    split; [now apply analytics_fails|].
    repeat split; reflexivity.
Qed.

(** C8 (as amended).  [get_participants] never raises.  When the query of
    the table raises, the report has no participants and an [error] entry
    that describes the failure.  When there is no table and reading the log
    stream raises, the report has no participants either; it has the
    [error] entry unless the exception is a [ClientError], which the
    operation swallows. *)
Theorem participants_read_failure (w : aws) (sid : string) (e : exn) :
  (exists r, get_participants w sid = Ok r) /\
  (get_dynamodb_table w = Ok (Some EngagementTable) ->
   table_query w sid = Raise e ->
   exists r,
     get_participants w sid = Ok r /\
     field r "participants" = Some (JList []) /\
     field r "error" =
       Some (JStr ("Failed to get participants: " ++ str e))) /\
  (get_dynamodb_table w = Ok None ->
   logs_client w = Ok tt ->
   get_log_events w sid = Raise e ->
   exists r,
     get_participants w sid = Ok r /\
     field r "participants" = Some (JList []) /\
     field r "error" =
       if is_ClientError e then None
       else Some (JStr ("Failed to get participants: " ++ str e))).
Proof.
  split; [apply participants_never_raises|].
  unfold get_participants, collect_participants. split.
  - intros -> ->. simpl. eexists. repeat split; reflexivity.
  - intros -> -> ->. simpl.
    destruct (is_ClientError e); simpl; eexists; repeat split; reflexivity.
Qed.

Lemma participants_read_failure_witness :
  (exists r,
     get_participants (table_failing (OtherError "timed out")) "missing"
       = Ok r /\
     field r "participants" = Some (JList []) /\
     field r "error" =
       Some (JStr "Failed to get participants: timed out")) /\
  (exists r,
     get_participants (logs_failing (OtherError "timed out")) "missing"
       = Ok r /\
     field r "participants" = Some (JList []) /\
     field r "error" =
       Some (JStr "Failed to get participants: timed out")).
Proof.
  split.
  - apply (proj1 (proj2 (participants_read_failure
                           (table_failing (OtherError "timed out"))
                           "missing" (OtherError "timed out"))));
      reflexivity.
  - apply (proj2 (proj2 (participants_read_failure
                           (logs_failing (OtherError "timed out"))
                           "missing" (OtherError "timed out"))));
      reflexivity.
Defined.

(** ** The participants of a session *)

(** On the records that the store returns: when these are the tracked
    records [recs] of the session, [get_participants] lists one summary for
    each distinct participant name of [recs] and no other, and the
    [activity_count] of a summary is the number of records of [recs] with
    its name. *)
Lemma one_summary_per_participant (w : aws) (sid : string)
    (recs : list tracked) :
  read_activities w sid = Ok (map (tracked_item sid) recs) ->
  let names := map t_participant recs in
  exists r participants,
    get_participants w sid = Ok r /\
    field r "participants" = Some (JList (map summary_json participants)) /\
    field r "total_participants" = Some (JInt (distinct names)) /\
    NoDup (map name participants) /\
    (forall p, In p (map name participants) <-> In p names) /\
    (forall s, In s participants -> activity_count s = count (name s) names).
Proof.
  intros Hread names.
  exists (participants_report w sid (replay recs)), (values (replay recs)).
  split; [now apply participants_returns|].
  split; [reflexivity|].
  split; [unfold participants_report; cbn [field lookup String.eqb];
          now rewrite replay_len|].
  rewrite replay_names.
  split; [apply replay_keys_NoDup|].
  split; [intros p; apply replay_keys_In|].
  intros s Hin.
  apply replay_values_In in Hin as (first & last & _ & _ & ->).
  reflexivity.
Qed.

Lemma one_summary_per_participant_witness :
  let names := ["Alice"; "Bob"; "Alice"] in
  exists r participants,
    get_participants
      (table_with (map (tracked_item "s1") three_records)) "s1" = Ok r /\
    field r "participants" = Some (JList (map summary_json participants)) /\
    field r "total_participants" = Some (JInt (distinct names)) /\
    NoDup (map name participants) /\
    (forall p, In p (map name participants) <-> In p names) /\
    (forall s, In s participants -> activity_count s = count (name s) names).
Proof.
  apply (one_summary_per_participant
           (table_with (map (tracked_item "s1") three_records)) "s1"
           three_records).
  reflexivity.
Defined.

(** Every participant is reported as active: [active_count] is
    [total_participants]. *)
Remark active_count_is_total (w : aws) (sid : string) (recs : list tracked) :
  read_activities w sid = Ok (map (tracked_item sid) recs) ->
  exists r,
    get_participants w sid = Ok r /\
    field r "active_count" = field r "total_participants".
Proof.
  intros Hread. exists (participants_report w sid (replay recs)).
  split; [now apply participants_returns|].
  unfold participants_report. cbn [field lookup String.eqb].
  now rewrite replay_all_active.
Qed.




(** C8 (as stated) fails where there is no table and the log stream cannot
    be read: the [ClientError] is swallowed and the report has no [error]
    entry. *)
Lemma swallowed_log_failure :
  let w := logs_failing (ClientError "ResourceNotFoundException") in
  get_dynamodb_table w = Ok None /\
  get_log_events w "missing" =
    Raise (ClientError "ResourceNotFoundException") /\
  exists r,
    get_participants w "missing" = Ok r /\
    field r "participants" = Some (JList []) /\
    field r "error" = None.
Proof.
  cbv zeta. split; [reflexivity|]. split; [reflexivity|].
  eexists. repeat split; reflexivity.
Qed.

(** ** The scenario of Alice and Bob *)

(** C2 (as stated) fails: the scenario yields the score 54, not 37. *)
Lemma scenario_score_is_54 :
  exists r,
    get_engagement_analytics
      (table_with (map (tracked_item "s1") scenario)) "s1" = Ok r /\
    field r "engagement_score" = Some (JInt 54) /\
    field r "engagement_score" <> Some (JInt 37).
Proof.
  eexists. split; [reflexivity|]. split; [reflexivity | discriminate].
Qed.

(** C2 (as amended).  For 6 records of Alice with activity "question" and 11
    records of Bob with activity "chat_message" in session "s1", in any
    order and whatever their timestamps and details, the report has
    [activity_breakdown] {"question": 6, "chat_message": 11},
    [unique_participants] 2, the "extend Q&A" and the "good chat
    interaction" line among its recommendations, and [engagement_score]
    [min(100, 17*2 + 2*10) = 54]. *)
Theorem scenario_report (w : aws) (recs : list tracked) :
  read_activities w "s1" = Ok (map (tracked_item "s1") recs) ->
  Permutation (map (fun t => (t_participant t, t_activity t)) recs)
    (repeat ("Alice", "question") 6 ++ repeat ("Bob", "chat_message") 11) ->
  exists r breakdown lines,
    get_engagement_analytics w "s1" = Ok r /\
    field r "activity_breakdown" = Some (counts_json breakdown) /\
    Permutation breakdown [("question", 6); ("chat_message", 11)] /\
    field r "unique_participants" = Some (JInt 2) /\
    field r "recommendations" = Some (JList (map JStr lines)) /\
    In "Many questions being asked - consider extending Q&A time" lines /\
    In "Good chat interaction" lines /\
    field r "engagement_score" = Some (JInt 54).
Proof.
  intros Hread Hperm.
  assert (Hnames : Permutation (map t_participant recs)
                     (repeat "Alice" 6 ++ repeat "Bob" 11)).
  { apply (Permutation_map fst) in Hperm. now rewrite map_map in Hperm. }
  assert (Htypes : Permutation (map t_activity recs)
                     (repeat "question" 6 ++ repeat "chat_message" 11)).
  { apply (Permutation_map snd) in Hperm. now rewrite map_map in Hperm. }
  assert (Hlen : len (map (tracked_item "s1") recs) = 17).
  { unfold len. apply Permutation_length in Hperm.
    rewrite !length_map in *. now rewrite Hperm. }
  exists (analytics_report w "s1" (map (tracked_item "s1") recs)).
  exists (tally (map t_activity recs)).
  exists [ "Many questions being asked - consider extending Q&A time";
           "Good chat interaction" ].
  split; [now apply analytics_returns|].
  rewrite analytics_report_tally. cbv zeta. rewrite !map_map.
  change (map (fun x => activity_of (tracked_item "s1" x)) recs)
    with (map t_activity recs).
  change (map (fun x => participant_of (tracked_item "s1" x)) recs)
    with (map t_participant recs).
  rewrite Hlen, (tally_len_perm _ _ Hnames), !tally_get.
  rewrite !(count_perm _ _ _ Htypes).
  split; [reflexivity|].
  split; [apply (tally_perm _ _ Htypes)|].
  repeat split; try reflexivity; simpl; tauto.
Qed.

Lemma scenario_report_witness :
  exists r breakdown lines,
    get_engagement_analytics
      (table_with (map (tracked_item "s1") scenario)) "s1" = Ok r /\
    field r "activity_breakdown" = Some (counts_json breakdown) /\
    Permutation breakdown [("question", 6); ("chat_message", 11)] /\
    field r "unique_participants" = Some (JInt 2) /\
    field r "recommendations" = Some (JList (map JStr lines)) /\
    In "Many questions being asked - consider extending Q&A time" lines /\
    In "Good chat interaction" lines /\
    field r "engagement_score" = Some (JInt 54).
Proof.
  apply (scenario_report
           (table_with (map (tracked_item "s1") scenario)) scenario).
  - reflexivity.
  - apply Permutation_refl.
Defined.

(** * Further properties of the server *)

(** ** The table *)

(** X1.  [get_dynamodb_table] never lets a [ClientError] escape, and it
    returns [None] exactly when loading the table and creating it both fail
    with a [ClientError]. *)
Theorem get_dynamodb_table_outcomes (w : aws) :
  (get_dynamodb_table w = Ok None <->
   (exists m, table_load w = Raise (ClientError m)) /\
   (exists m, create_table w = Raise (ClientError m))) /\
  (forall e, get_dynamodb_table w = Raise e -> is_ClientError e = false).
Proof.
  unfold get_dynamodb_table.
  destruct (table_load w) as [[]|[m1|k1|m1]]; simpl;
    destruct (create_table w) as [[]|[m2|k2|m2]]; simpl;
    (split;
     [ split;
       [ try discriminate; intros _; split; eexists; reflexivity
       | intros [[m Hm] [m' Hm']]; try discriminate; reflexivity ]
     | intros e He; try discriminate; injection He as <-; reflexivity ]).
Qed.

Lemma get_dynamodb_table_outcomes_witness :
  get_dynamodb_table (logs_with []) = Ok None.
Proof.
  apply (proj2 (proj1 (get_dynamodb_table_outcomes (logs_with [])))).
  split; eexists; reflexivity.
Defined.

(** ** Counts of the analytics *)

Lemma distinct_bounds l : 0 <= distinct l <= len l.
Proof.
  unfold distinct, len. split; [lia|]. apply inj_le.
  apply NoDup_incl_length; [apply NoDup_nodup|].
  intros x Hx. now apply nodup_In in Hx.
Qed.

Lemma distinct_zero l : distinct l = 0 <-> l = [].
Proof.
  split; [|now intros ->].
  destruct l as [|x l]; [reflexivity|]. unfold distinct, len. intros H.
  assert (Hin : In x (nodup string_dec (x :: l)))
    by (apply nodup_In; now left).
  destruct (nodup string_dec (x :: l)); [destruct Hin | discriminate H].
Qed.

Lemma len_zero {A : Type} (l : list A) : len l = 0 <-> l = [].
Proof.
  unfold len. destruct l; simpl; split; try reflexivity; try discriminate;
    lia.
Qed.

(** X2.  In every report of [get_engagement_analytics],
    [0 <= unique_participants <= total_activities], and the one is 0
    exactly when the other is. *)
Theorem unique_participants_bounds (w : aws) (sid : string) :
  exists r total unique,
    get_engagement_analytics w sid = Ok r /\
    field r "total_activities" = Some (JInt total) /\
    field r "unique_participants" = Some (JInt unique) /\
    0 <= unique <= total /\
    (unique = 0 <-> total = 0).
Proof.
  destruct (read_activities w sid) as [acts|e] eqn:Hread.
  - exists (analytics_report w sid acts), (len acts),
      (distinct (map participant_of acts)).
    split; [now apply analytics_returns|].
    rewrite analytics_report_tally, <- tally_len. cbv zeta.
    split; [reflexivity|]. split; [reflexivity|].
    rewrite tally_len.
    pose proof (distinct_bounds (map participant_of acts)) as Hb.
    assert (Hlen : len (map participant_of acts) = len acts)
      by (unfold len; now rewrite length_map).
    rewrite Hlen in Hb.
    split; [exact Hb|].
    rewrite distinct_zero, len_zero. split; [|now intros ->].
    now destruct acts.
  - exists (analytics_failure w e), 0, 0.
    split; [now apply analytics_fails|].
    repeat split; try reflexivity; lia.
Qed.

Section SumOfCounts.
Context {V : Type} (f : V -> Z).

Lemma sum_of_app (l l' : list Z) : sum_of (l ++ l') = sum_of l + sum_of l'.
Proof. induction l as [|x l IH]; simpl; lia. Qed.

Lemma sum_of_setitem_present (d : dict V) k v v0 :
  lookup d k = Some v0 ->
  sum_of (map f (values (setitem d k v))) =
  sum_of (map f (values d)) - f v0 + f v.
Proof.
  induction d as [|[k' v'] d IH]; simpl; [discriminate|].
  destruct (String.eqb k' k); simpl.
  - intros [= ->]. lia.
  - intros H. rewrite (IH H). lia.
Qed.

Lemma sum_of_setitem_absent (d : dict V) k v :
  lookup d k = None ->
  sum_of (map f (values (setitem d k v))) = sum_of (map f (values d)) + f v.
Proof.
  intros H. rewrite (setitem_absent _ _ _ H). unfold values.
  rewrite !map_app, sum_of_app. simpl. lia.
Qed.

End SumOfCounts.

Lemma tally_sum l : sum_of (values (tally l)) = len l.
Proof.
  induction l as [|a l IH] using rev_ind; [reflexivity|].
  rewrite tally_snoc, len_snoc, <- IH. unfold bump, get.
  rewrite <- (map_id (values (setitem _ _ _))), <- (map_id (values (tally l))).
  destruct (lookup (tally l) a) as [v|] eqn:E.
  - rewrite (sum_of_setitem_present (fun z => z) _ _ _ _ E). lia.
  - rewrite (sum_of_setitem_absent (fun z => z) _ _ _ E). lia.
Qed.

Lemma tally_values_positive l : Forall (fun c => 1 <= c) (values (tally l)).
Proof.
  apply Forall_forall. intros c Hc.
  apply In_values_lookup in Hc as [k Hk]; [|apply tally_keys_NoDup].
  apply lookup_Some_In, tally_entry in Hk as [Hin ->].
  apply count_pos_In in Hin. lia.
Qed.

(** X3.  The counts of [activity_breakdown] are all at least 1 and add up
    to [total_activities]. *)
Theorem activity_breakdown_adds_up (w : aws) (sid : string)
    (acts : list item) :
  read_activities w sid = Ok acts ->
  exists r breakdown,
    get_engagement_analytics w sid = Ok r /\
    field r "activity_breakdown" = Some (counts_json breakdown) /\
    field r "total_activities" = Some (JInt (sum_of (map snd breakdown))) /\
    Forall (fun c => 1 <= c) (map snd breakdown).
Proof.
  intros Hread.
  exists (analytics_report w sid acts), (tally (map activity_of acts)).
  split; [now apply analytics_returns|].
  rewrite analytics_report_tally. cbv zeta.
  split; [reflexivity|].
  fold (values (tally (map activity_of acts))).
  rewrite tally_sum.
  assert (Hlen : len (map activity_of acts) = len acts)
    by (unfold len; now rewrite length_map).
  rewrite Hlen.
  split; [reflexivity | apply tally_values_positive].
Qed.

Lemma activity_breakdown_adds_up_witness :
  exists r breakdown,
    get_engagement_analytics
      (table_with (map (tracked_item "s1") three_records)) "s1" = Ok r /\
    field r "activity_breakdown" = Some (counts_json breakdown) /\
    field r "total_activities" = Some (JInt (sum_of (map snd breakdown))) /\
    Forall (fun c => 1 <= c) (map snd breakdown).
Proof.
  apply (activity_breakdown_adds_up
           (table_with (map (tracked_item "s1") three_records)) "s1"
           (map (tracked_item "s1") three_records)).
  reflexivity.
Defined.

(** ** The listing and the analytics agree *)

Section MapValues.
Context {V W : Type} (g : V -> W).

Lemma lookup_map_values (d : dict V) k :
  lookup (map_values g d) k = option_map g (lookup d k).
Proof.
  induction d as [|[k' v] d IH]; simpl; [reflexivity|].
  now destruct (String.eqb k' k).
Qed.

Lemma setitem_map_values (d : dict V) k v :
  map_values g (setitem d k v) = setitem (map_values g d) k (g v).
Proof.
  induction d as [|[k' v'] d IH]; simpl; [reflexivity|].
  destruct (String.eqb k' k); simpl; [reflexivity|]. now rewrite IH.
Qed.

Lemma keys_map_values (d : dict V) : keys (map_values g d) = keys d.
Proof. unfold keys, map_values. rewrite map_map. reflexivity. Qed.

Lemma values_map_values (d : dict V) :
  values (map_values g d) = map g (values d).
Proof. unfold values, map_values. now rewrite !map_map. Qed.

End MapValues.

(** The activity counts of the participants are the tally of the
    participant column. *)
Lemma replay_counts l :
  map_values activity_count (replay l) = tally (map t_participant l).
Proof.
  induction l as [|t l IH] using rev_ind; [reflexivity|].
  rewrite replay_snoc, map_app. cbn [map]. rewrite tally_snoc, <- IH.
  unfold upsert, bump, get. rewrite lookup_map_values.
  destruct (lookup (replay l) (t_participant t)) as [s|];
    now rewrite setitem_map_values.
Qed.

Lemma replay_keys l : keys (replay l) = keys (tally (map t_participant l)).
Proof. now rewrite <- replay_counts, keys_map_values. Qed.

(** X4.  On the tracked records of a session the two operations agree:
    [total_participants] of the listing is [unique_participants] of the
    analytics, and the [activity_count]s of the listing add up to
    [total_activities]. *)
Theorem listing_agrees_with_analytics (w : aws) (sid : string)
    (recs : list tracked) :
  read_activities w sid = Ok (map (tracked_item sid) recs) ->
  exists listing report participants,
    get_participants w sid = Ok listing /\
    get_engagement_analytics w sid = Ok report /\
    field listing "participants" =
      Some (JList (map summary_json participants)) /\
    field listing "total_participants" = field report "unique_participants" /\
    field report "total_activities" =
      Some (JInt (sum_of (map activity_count participants))).
Proof.
  intros Hread.
  exists (participants_report w sid (replay recs)).
  exists (analytics_report w sid (map (tracked_item sid) recs)).
  exists (values (replay recs)).
  split; [now apply participants_returns|].
  split; [now apply analytics_returns|].
  split; [reflexivity|].
  rewrite analytics_report_tally. cbv zeta.
  unfold participants_report. cbn [field lookup String.eqb].
  rewrite replay_len, tally_len, map_map.
  change (map (fun x => participant_of (tracked_item sid x)) recs)
    with (map t_participant recs).
  split; [reflexivity|].
  rewrite <- values_map_values, replay_counts, tally_sum.
  unfold len. now rewrite !length_map.
Qed.

Lemma listing_agrees_with_analytics_witness :
  exists listing report participants,
    get_participants
      (table_with (map (tracked_item "s1") three_records)) "s1" = Ok listing /\
    get_engagement_analytics
      (table_with (map (tracked_item "s1") three_records)) "s1" = Ok report /\
    field listing "participants" =
      Some (JList (map summary_json participants)) /\
    field listing "total_participants" = field report "unique_participants" /\
    field report "total_activities" =
      Some (JInt (sum_of (map activity_count participants))).
Proof.
  apply (listing_agrees_with_analytics
           (table_with (map (tracked_item "s1") three_records)) "s1"
           three_records).
  reflexivity.
Defined.

(** X5.  The listing names the participants in the order in which they
    first appear in the records. *)
Theorem listing_in_order_of_appearance (w : aws) (sid : string)
    (recs : list tracked) :
  read_activities w sid = Ok (map (tracked_item sid) recs) ->
  exists listing participants,
    get_participants w sid = Ok listing /\
    field listing "participants" =
      Some (JList (map summary_json participants)) /\
    StronglySorted (seen_before (map t_participant recs))
      (map name participants).
Proof.
  intros Hread.
  exists (participants_report w sid (replay recs)), (values (replay recs)).
  split; [now apply participants_returns|].
  split; [reflexivity|].
  rewrite replay_names, replay_keys. apply tally_keys_first_seen.
Qed.

Lemma listing_in_order_of_appearance_witness :
  exists listing participants,
    get_participants
      (table_with (map (tracked_item "s1") three_records)) "s1" = Ok listing /\
    field listing "participants" =
      Some (JList (map summary_json participants)) /\
    StronglySorted (seen_before ["Alice"; "Bob"; "Alice"])
      (map name participants).
Proof.
  apply (listing_in_order_of_appearance
           (table_with (map (tracked_item "s1") three_records)) "s1"
           three_records).
  reflexivity.
Defined.

(** ** Records with missing entries *)

Lemma has_keys_dec (record : item) : {has_keys record} + {~ has_keys record}.
Proof.
  unfold has_keys.
  destruct (lookup record "participant"), (lookup record "timestamp");
    [left | right | right | right]; intuition congruence.
Qed.

Lemma fold_item_has_keys participants record :
  has_keys record -> exists participants',
    fold_item participants record = Ok participants'.
Proof.
  unfold has_keys, fold_item, note_activity, getitem. intros [Hp Ht].
  destruct (lookup record "participant") as [p|]; [|congruence].
  destruct (lookup record "timestamp") as [t|]; [|congruence]. simpl.
  destruct (lookup participants p); simpl; eauto.
Qed.

Lemma fold_item_missing_key participants record :
  ~ has_keys record -> exists k,
    fold_item participants record = Raise (KeyError k) /\
    (k = "participant" \/ k = "timestamp").
Proof.
  unfold has_keys, fold_item, note_activity, getitem. intros Hno.
  destruct (lookup record "participant") as [p|]; simpl; [|eauto].
  destruct (lookup record "timestamp") as [t|].
  - exfalso. apply Hno. split; discriminate.
  - destruct (lookup participants p); simpl; eauto.
Qed.

Lemma for_each_fold_item_has_keys records participants :
  Forall has_keys records -> exists participants',
    for_each fold_item records participants = Ok participants'.
Proof.
  intros Hall. revert participants.
  induction Hall as [|r l Hr _ IH]; intros ps; simpl; [eauto|].
  destruct (fold_item_has_keys ps r Hr) as [ps' ->]. simpl. apply IH.
Qed.

Lemma for_each_fold_item_missing_key records participants :
  ~ Forall has_keys records -> exists k,
    for_each fold_item records participants = Raise (KeyError k) /\
    (k = "participant" \/ k = "timestamp").
Proof.
  revert participants. induction records as [|r l IH]; intros ps Hno.
  - exfalso. apply Hno. constructor.
  - simpl. destruct (has_keys_dec r) as [Hr|Hr].
    + destruct (fold_item_has_keys ps r Hr) as [ps' ->]. simpl.
      apply IH. intros Hall. apply Hno. now constructor.
    + destruct (fold_item_missing_key ps r Hr) as (k & -> & Hk).
      simpl. eauto.
Qed.

(** X6.  The listing is all or nothing.  When every record read has a
    ["participant"] and a ["timestamp"] entry the listing reports no error;
    when one record lacks one of them, the listing has no participant at
    all and its [error] is the [KeyError] of the missing entry, while the
    analytics on the same records report no error and count every
    record. *)
Theorem listing_is_all_or_nothing (w : aws) (sid : string)
    (acts : list item) :
  read_activities w sid = Ok acts ->
  exists listing report,
    get_participants w sid = Ok listing /\
    get_engagement_analytics w sid = Ok report /\
    field report "error" = None /\
    field report "total_activities" = Some (JInt (len acts)) /\
    (Forall has_keys acts -> field listing "error" = None) /\
    (~ Forall has_keys acts ->
     field listing "participants" = Some (JList []) /\
     field listing "total_participants" = Some (JInt 0) /\
     exists k,
       (k = "participant" \/ k = "timestamp") /\
       field listing "error" =
         Some (JStr ("Failed to get participants: '" ++ k ++ "'"))).
Proof.
  intros Hread. unfold get_participants.
  rewrite collect_participants_read, Hread. simpl.
  rewrite (analytics_returns _ _ _ Hread), analytics_report_tally. cbv zeta.
  destruct (Forall_dec has_keys has_keys_dec acts) as [Hall|Hno].
  - destruct (for_each_fold_item_has_keys acts [] Hall) as [ps ->]. simpl.
    eexists. eexists. split; [reflexivity|]. split; [reflexivity|].
    split; [reflexivity|]. split; [reflexivity|].
    split; [reflexivity | tauto].
  - destruct (for_each_fold_item_missing_key acts [] Hno) as (k & -> & Hk).
    simpl. eexists. eexists. split; [reflexivity|]. split; [reflexivity|].
    split; [reflexivity|]. split; [reflexivity|].
    split; [tauto|]. intros _.
    split; [reflexivity|]. split; [reflexivity|].
    exists k. split; [exact Hk | reflexivity].
Qed.

Lemma listing_is_all_or_nothing_witness :
  let acts :=
    [ tracked_item "s1" (Tracked "2024-05-01T09:00:00" "Alice" "question" "");
      [("participant", "Bob"); ("activity", "chat_message")] ] in
  ~ Forall has_keys acts /\
  exists listing report,
    get_participants (table_with acts) "s1" = Ok listing /\
    get_engagement_analytics (table_with acts) "s1" = Ok report /\
    field report "error" = None /\
    field report "total_activities" = Some (JInt (len acts)) /\
    (Forall has_keys acts -> field listing "error" = None) /\
    (~ Forall has_keys acts ->
     field listing "participants" = Some (JList []) /\
     field listing "total_participants" = Some (JInt 0) /\
     exists k,
       (k = "participant" \/ k = "timestamp") /\
       field listing "error" =
         Some (JStr ("Failed to get participants: '" ++ k ++ "'"))).
Proof.
  cbv zeta. split.
  - intros Hall. inversion Hall as [|? ? _ Hrest]; subst.
    inversion Hrest as [|? ? [_ Hts] _]; subst. now apply Hts.
  - apply (listing_is_all_or_nothing (table_with _) "s1"). reflexivity.
Defined.

(** ** The order of the records *)

(** X7.  The counts, the score and the recommendations of the analytics do
    not depend on the order in which the store returns the records. *)
Theorem analytics_ignore_order (w w' : aws) (sid : string)
    (acts acts' : list item) :
  read_activities w sid = Ok acts ->
  read_activities w' sid = Ok acts' ->
  Permutation acts acts' ->
  exists r r' breakdown breakdown',
    get_engagement_analytics w sid = Ok r /\
    get_engagement_analytics w' sid = Ok r' /\
    field r "total_activities" = field r' "total_activities" /\
    field r "unique_participants" = field r' "unique_participants" /\
    field r "engagement_score" = field r' "engagement_score" /\
    field r "recommendations" = field r' "recommendations" /\
    field r "activity_breakdown" = Some (counts_json breakdown) /\
    field r' "activity_breakdown" = Some (counts_json breakdown') /\
    Permutation breakdown breakdown'.
Proof.
  intros Hread Hread' Hperm.
  exists (analytics_report w sid acts), (analytics_report w' sid acts').
  exists (tally (map activity_of acts)), (tally (map activity_of acts')).
  split; [now apply analytics_returns|].
  split; [now apply analytics_returns|].
  rewrite !analytics_report_tally. cbv zeta. cbn [field lookup String.eqb].
  assert (Hlen : len acts = len acts')
    by (unfold len; now rewrite (Permutation_length Hperm)).
  pose proof (Permutation_map participant_of Hperm) as Hnames.
  pose proof (Permutation_map activity_of Hperm) as Htypes.
  rewrite Hlen, (tally_len_perm _ _ Hnames), !tally_get.
  rewrite !(count_perm _ _ _ Htypes).
  repeat split; try reflexivity. now apply tally_perm.
Qed.

Lemma analytics_ignore_order_witness :
  exists r r' breakdown breakdown',
    get_engagement_analytics
      (table_with (map (tracked_item "s1") three_records)) "s1" = Ok r /\
    get_engagement_analytics
      (table_with (rev (map (tracked_item "s1") three_records))) "s1"
      = Ok r' /\
    field r "total_activities" = field r' "total_activities" /\
    field r "unique_participants" = field r' "unique_participants" /\
    field r "engagement_score" = field r' "engagement_score" /\
    field r "recommendations" = field r' "recommendations" /\
    field r "activity_breakdown" = Some (counts_json breakdown) /\
    field r' "activity_breakdown" = Some (counts_json breakdown') /\
    Permutation breakdown breakdown'.
Proof.
  apply (analytics_ignore_order
           (table_with (map (tracked_item "s1") three_records))
           (table_with (rev (map (tracked_item "s1") three_records)))
           "s1"
           (map (tracked_item "s1") three_records)
           (rev (map (tracked_item "s1") three_records))).
  - reflexivity.
  - reflexivity.
  - apply Permutation_rev.
Defined.

(** ** Who is left out of the ranking *)

Lemma StronglySorted_app_inv {A : Type} (R : A -> A -> Prop) l1 l2 x y :
  StronglySorted R (l1 ++ l2) -> In x l1 -> In y l2 -> R x y.
Proof.
  induction l1 as [|a l1 IH]; simpl; [tauto|].
  intros Hs [<-|Hx] Hy; inversion Hs as [|? ? Hs' Ha]; subst.
  - rewrite Forall_forall in Ha. apply Ha, in_or_app. now right.
  - now apply IH.
Qed.

(** X8.  The entries of [top_participants] are of distinct participants,
    and a participant that is left out has no more records than any
    participant that is in. *)
Theorem left_out_of_top_participants (w : aws) (sid : string)
    (acts : list item) :
  read_activities w sid = Ok acts ->
  let names := map participant_of acts in
  exists r top,
    get_engagement_analytics w sid = Ok r /\
    field r "top_participants" = Some (counts_json top) /\
    NoDup (map fst top) /\
    forall p c q,
      In (p, c) top -> ~ In q (map fst top) -> count q names <= c.
Proof.
  intros Hread names.
  exists (analytics_report w sid acts), (top_participants (tally names)).
  split; [now apply analytics_returns|].
  split; [now rewrite analytics_report_tally|].
  unfold top_participants, items.
  set (full := sorted_reverse snd (tally names)).
  assert (Hperm : Permutation full (tally names))
    by apply sorted_reverse_perm.
  assert (Hsplit : firstn 5 full ++ skipn 5 full = full)
    by apply firstn_skipn.
  split.
  { assert (Hnd : NoDup (map fst full)).
    { eapply Permutation_NoDup;
        [symmetry; apply Permutation_map, Hperm | apply tally_keys_NoDup]. }
    rewrite <- Hsplit, map_app in Hnd. now apply NoDup_app_remove_r in Hnd. }
  intros p c q Hp Hq.
  destruct (in_dec string_dec q names) as [Hin|Hnotin].
  - assert (Hfull : In (q, count q names) full).
    { eapply Permutation_in; [symmetry; exact Hperm|].
      now apply tally_entry. }
    rewrite <- Hsplit in Hfull. apply in_app_or in Hfull as [Htop|Hrest].
    + exfalso. apply Hq. change q with (fst (q, count q names)).
      now apply in_map.
    + pose proof (ranking_sorted names) as Hs. fold full in Hs.
      rewrite <- Hsplit in Hs.
      change (snd (q, count q names) <= snd (p, c)).
      eapply ranked_key_le.
      exact (StronglySorted_app_inv _ _ _ _ _ Hs Hp Hrest).
  - apply count_zero_notin in Hnotin. rewrite Hnotin.
    apply In_firstn in Hp.
    apply (Permutation_in _ Hperm), tally_entry in Hp as [_ ->].
    unfold count. lia.
Qed.

Lemma left_out_of_top_participants_witness :
  let names := ["Alice"; "Bob"; "Alice"] in
  exists r top,
    get_engagement_analytics
      (table_with (map (tracked_item "s1") three_records)) "s1" = Ok r /\
    field r "top_participants" = Some (counts_json top) /\
    NoDup (map fst top) /\
    forall p c q,
      In (p, c) top -> ~ In q (map fst top) -> count q names <= c.
Proof.
  apply (left_out_of_top_participants
           (table_with (map (tracked_item "s1") three_records)) "s1"
           (map (tracked_item "s1") three_records)).
  reflexivity.
Defined.

(** ** The fallback *)

(** X9.  The log stream serves as the table does: when the events of the
    stream that decode are the items that a table returns, the two
    operations give the same reports on either storage; events that do not
    decode are skipped. *)
Theorem fallback_gives_the_same_reports (w w' : aws) (sid : string)
    (events : list log_message) :
  get_dynamodb_table w = Ok (Some EngagementTable) ->
  table_query w sid = Ok (decode_events events) ->
  get_dynamodb_table w' = Ok None ->
  logs_client w' = Ok tt ->
  get_log_events w' sid = Ok events ->
  now w = now w' ->
  get_participants w sid = get_participants w' sid /\
  get_engagement_analytics w sid = get_engagement_analytics w' sid.
Proof.
  intros Htable Hquery Hnone Hclient Hevents Hnow.
  assert (Hread : read_activities w sid = Ok (decode_events events)).
  { unfold read_activities. now rewrite Htable. }
  assert (Hread' : read_activities w' sid = Ok (decode_events events)).
  { unfold read_activities. rewrite Hnone. simpl.
    rewrite Hclient. simpl. now rewrite Hevents. }
  split.
  - unfold get_participants.
    rewrite !collect_participants_read, Hread, Hread'. simpl.
    destruct (for_each fold_item (decode_events events) []); simpl;
      unfold participants_report, participants_failure; now rewrite Hnow.
  - rewrite (analytics_returns _ _ _ Hread), (analytics_returns _ _ _ Hread').
    unfold analytics_report. now rewrite Hnow.
Qed.

Lemma fallback_gives_the_same_reports_witness :
  let events :=
    [ Activity (tracked_item "s1"
                  (Tracked "2024-05-01T09:00:00" "Alice" "question" ""));
      Garbled;
      Activity (tracked_item "s1"
                  (Tracked "2024-05-01T09:05:00" "Bob" "chat_message" "")) ] in
  get_participants (table_with (decode_events events)) "s1" =
    get_participants (logs_with events) "s1" /\
  get_engagement_analytics (table_with (decode_events events)) "s1" =
    get_engagement_analytics (logs_with events) "s1".
Proof.
  cbv zeta.
  apply (fallback_gives_the_same_reports (table_with _) (logs_with _) "s1"
           [ Activity (tracked_item "s1"
                         (Tracked "2024-05-01T09:00:00" "Alice" "question" ""));
             Garbled;
             Activity (tracked_item "s1"
                         (Tracked "2024-05-01T09:05:00" "Bob" "chat_message"
                            "")) ]);
    reflexivity.
Defined.

(** ** One more record *)

Lemma replay_entry_name l k s : In (k, s) (replay l) -> name s = k.
Proof.
  intros Hin. apply In_lookup in Hin; [|apply replay_keys_NoDup].
  now apply replay_lookup_Some in Hin as (first & last & _ & _ & ->).
Qed.

Lemma replay_In_iff l s :
  In s (values (replay l)) <-> lookup (replay l) (name s) = Some s.
Proof.
  split.
  - intros Hin. apply in_map_iff in Hin as [[k s'] [E Hin]].
    simpl in E. subst s'. rewrite (replay_entry_name _ _ _ Hin).
    apply In_lookup; [apply replay_keys_NoDup | assumption].
  - intros Hl. apply lookup_Some_In in Hl.
    change s with (snd (name s, s)). now apply in_map.
Qed.

Lemma find_by_name (d : dict summary) p :
  (forall k s, In (k, s) d -> name s = k) ->
  List.find (fun s => String.eqb (name s) p) (values d) = lookup d p.
Proof.
  induction d as [|[k s] d IH]; intros Hnames; simpl; [reflexivity|].
  rewrite (Hnames k s) by now left.
  destruct (String.eqb k p); [reflexivity|].
  apply IH. intros k' s' Hin. apply Hnames. now right.
Qed.

(** X10.  One more record at the end of the records of a session changes
    the listing for the participant of that record only: the summary of
    that participant keeps its [join_time], counts one activity more and
    has the timestamp of the record as [last_activity]; a participant not
    listed before is listed with one activity. *)
Theorem listing_after_one_more_record (w w' : aws) (sid : string)
    (recs : list tracked) (t : tracked) :
  read_activities w sid = Ok (map (tracked_item sid) recs) ->
  read_activities w' sid = Ok (map (tracked_item sid) (recs ++ [t])) ->
  exists listing listing' participants participants',
    get_participants w sid = Ok listing /\
    get_participants w' sid = Ok listing' /\
    field listing "participants" =
      Some (JList (map summary_json participants)) /\
    field listing' "participants" =
      Some (JList (map summary_json participants')) /\
    (forall s, name s <> t_participant t ->
       (In s participants' <-> In s participants)) /\
    exists s',
      In s' participants' /\
      name s' = t_participant t /\
      last_activity s' = t_timestamp t /\
      match List.find (fun s => String.eqb (name s) (t_participant t))
              participants with
      | Some s =>
          join_time s' = join_time s /\
          activity_count s' = activity_count s + 1
      | None => join_time s' = t_timestamp t /\ activity_count s' = 1
      end.
Proof.
  intros Hread Hread'.
  exists (participants_report w sid (replay recs)).
  exists (participants_report w' sid (replay (recs ++ [t]))).
  exists (values (replay recs)), (values (replay (recs ++ [t]))).
  split; [now apply participants_returns|].
  split; [now apply participants_returns|].
  split; [reflexivity|]. split; [reflexivity|].
  split.
  { intros s Hne. rewrite !replay_In_iff, replay_snoc.
    now rewrite lookup_upsert_other by congruence. }
  rewrite (find_by_name _ _ (replay_entry_name recs)).
  assert (Hlookup : exists s',
            lookup (replay (recs ++ [t])) (t_participant t) = Some s' /\
            last_activity s' = t_timestamp t /\
            match lookup (replay recs) (t_participant t) with
            | Some s =>
                name s' = name s /\ join_time s' = join_time s /\
                activity_count s' = activity_count s + 1
            | None =>
                name s' = t_participant t /\ join_time s' = t_timestamp t /\
                activity_count s' = 1
            end).
  { rewrite replay_snoc. unfold upsert.
    destruct (lookup (replay recs) (t_participant t)) as [s|];
      rewrite lookup_setitem_same; eexists; repeat split; reflexivity. }
  destruct Hlookup as (s' & Hs' & Hlast & Hcase).
  assert (Hname : name s' = t_participant t).
  { destruct (lookup (replay recs) (t_participant t)) as [s|] eqn:E.
    - destruct Hcase as (-> & _). apply lookup_Some_In in E.
      now apply replay_entry_name in E.
    - now destruct Hcase. }
  exists s'. split; [apply replay_In_iff; now rewrite Hname|].
  split; [exact Hname|]. split; [exact Hlast|].
  destruct (lookup (replay recs) (t_participant t)); tauto.
Qed.

Lemma listing_after_one_more_record_witness :
  let t := Tracked "2024-05-01T09:09:00.000000" "Bob" "question" "" in
  exists listing listing' participants participants',
    get_participants
      (table_with (map (tracked_item "s1") three_records)) "s1" = Ok listing /\
    get_participants
      (table_with (map (tracked_item "s1") (three_records ++ [t]))) "s1"
      = Ok listing' /\
    field listing "participants" =
      Some (JList (map summary_json participants)) /\
    field listing' "participants" =
      Some (JList (map summary_json participants')) /\
    (forall s, name s <> t_participant t ->
       (In s participants' <-> In s participants)) /\
    exists s',
      In s' participants' /\
      name s' = t_participant t /\
      last_activity s' = t_timestamp t /\
      match List.find (fun s => String.eqb (name s) (t_participant t))
              participants with
      | Some s =>
          join_time s' = join_time s /\
          activity_count s' = activity_count s + 1
      | None => join_time s' = t_timestamp t /\ activity_count s' = 1
      end.
Proof.
  cbv zeta.
  apply (listing_after_one_more_record
           (table_with (map (tracked_item "s1") three_records))
           (table_with (map (tracked_item "s1") (three_records ++ [_])))
           "s1" three_records); reflexivity.
Defined.

(** ** When the engagement lines are reported *)

Ltac in_lines :=
  simpl in *;
  repeat match goal with
         | H : _ \/ _ |- _ => destruct H
         | H : False |- _ => destruct H
         | H : @eq string _ _ |- _ => discriminate H
         end.

Lemma recommend_low score question_count chat_count :
  In "Low engagement - consider encouraging more participation"
    (recommend score question_count chat_count) <-> score < 30.
Proof.
  unfold recommend.
  destruct (Z.ltb_spec 70 score), (Z.ltb_spec score 30),
    (5 <? question_count), (question_count <? 2), (10 <? chat_count);
    (split; intros Hin; [in_lines; lia | simpl; try lia; auto]).
Qed.

Lemma recommend_high score question_count chat_count :
  In "High engagement detected - workshop is going well"
    (recommend score question_count chat_count) <-> 70 < score.
Proof.
  unfold recommend.
  destruct (Z.ltb_spec 70 score), (Z.ltb_spec score 30),
    (5 <? question_count), (question_count <? 2), (10 <? chat_count);
    (split; intros Hin; [in_lines; lia | simpl; try lia; auto]).
Qed.

(** X11.  The "Low engagement" line is reported only for a session with
    fewer than 10 records of at most 2 participants, the "High engagement"
    line is reported for every session with 31 records or more, and the two
    lines are never reported together. *)
Theorem engagement_lines (w : aws) (sid : string) (acts : list item) :
  read_activities w sid = Ok acts ->
  let low := "Low engagement - consider encouraging more participation" in
  let high := "High engagement detected - workshop is going well" in
  exists r lines,
    get_engagement_analytics w sid = Ok r /\
    field r "recommendations" = Some (JList (map JStr lines)) /\
    (In low lines ->
     len acts < 10 /\ distinct (map participant_of acts) <= 2) /\
    (31 <= len acts -> In high lines) /\
    ~ (In low lines /\ In high lines).
Proof.
  intros Hread low high.
  exists (analytics_report w sid acts).
  rewrite analytics_report_tally. cbv zeta. rewrite tally_len.
  set (question_count := get _ "question" 0).
  set (chat_count := get _ "chat_message" 0).
  exists (recommend (engagement_score (len acts)
                       (distinct (map participant_of acts)))
            question_count chat_count).
  split.
  { subst question_count chat_count. rewrite <- tally_len.
    rewrite <- analytics_report_tally. now apply analytics_returns. }
  split; [reflexivity|].
  pose proof (distinct_bounds (map participant_of acts)) as Hb.
  assert (Hlen : len (map participant_of acts) = len acts)
    by (unfold len; now rewrite length_map).
  rewrite Hlen in Hb.
  assert (Hzero : distinct (map participant_of acts) = 0 -> len acts = 0).
  { rewrite distinct_zero, len_zero. now destruct acts. }
  unfold low, high. rewrite recommend_low, recommend_high.
  unfold engagement_score. lia.
Qed.

Lemma engagement_lines_witness :
  let low := "Low engagement - consider encouraging more participation" in
  let high := "High engagement detected - workshop is going well" in
  let acts := map (tracked_item "s1") three_records in
  exists r lines,
    get_engagement_analytics (table_with acts) "s1" = Ok r /\
    field r "recommendations" = Some (JList (map JStr lines)) /\
    (In low lines ->
     len acts < 10 /\ distinct (map participant_of acts) <= 2) /\
    (31 <= len acts -> In high lines) /\
    ~ (In low lines /\ In high lines).
Proof.
  cbv zeta.
  apply (engagement_lines
           (table_with (map (tracked_item "s1") three_records)) "s1"
           (map (tracked_item "s1") three_records)).
  reflexivity.
Defined.

(** ** Tracking an activity *)

(** X12.  [track_participant_activity] never raises and echoes the
    participant and the activity.  Its report is one of two: [tracked] is
    true, with the storage that took the record and the session, and no
    [error]; or [tracked] is false, with the [error], and neither [storage]
    nor [session_id]. *)
Theorem track_reports (w : aws) (ww : aws_writes)
    (participant_name activity_type details session_id : string) :
  exists r,
    track_participant_activity w ww participant_name activity_type details
      session_id = Ok r /\
    lookup r "participant" = Some (TStr participant_name) /\
    lookup r "activity" = Some (TStr activity_type) /\
    ((keys r = ["tracked"; "participant"; "activity"; "storage"; "session_id"] /\
      lookup r "tracked" = Some (TBool true) /\
      (lookup r "storage" = Some (TStr "DynamoDB") \/
       lookup r "storage" = Some (TStr "CloudWatch Logs")) /\
      lookup r "session_id" = Some (TStr session_id))
     \/
     (keys r = ["tracked"; "error"; "participant"; "activity"] /\
      lookup r "tracked" = Some (TBool false) /\
      exists e,
        lookup r "error" =
          Some (TStr ("Failed to track activity: " ++ str e)))).
Proof.
  unfold track_participant_activity.
  set (activity := activity_item _ _ _ _ _).
  assert (Hstorage : forall name,
            store_activity w ww session_id activity = Ok name ->
            name = "DynamoDB" \/ name = "CloudWatch Logs").
  { intros name. unfold store_activity.
    destruct (get_dynamodb_table w) as [[tbl|]|e]; simpl; try discriminate.
    - destruct (put_item ww activity); simpl; [|discriminate].
      intros [= <-]. now left.
    - destruct (logs_client w); simpl; [|discriminate].
      destruct (try_except (create_log_group ww) _ _); simpl; [|discriminate].
      destruct (try_except (create_log_stream ww session_id) _ _); simpl;
        [|discriminate].
      destruct (put_log_events ww session_id activity); simpl; [|discriminate].
      intros [= <-]. now right. }
  destruct (store_activity w ww session_id activity) as [name|e]; simpl.
  - eexists. split; [reflexivity|]. split; [reflexivity|].
    split; [reflexivity|]. left.
    split; [reflexivity|]. split; [reflexivity|].
    split; [|reflexivity].
    destruct (Hstorage name eq_refl) as [-> | ->]; [now left | now right].
  - eexists. split; [reflexivity|]. split; [reflexivity|].
    split; [reflexivity|]. right.
    split; [reflexivity|]. split; [reflexivity|]. now exists e.
Qed.

(** X13.  The log stream is the fallback for a missing table, not for a
    failed write.  When the table is there and rejects the item, nothing is
    tracked, whatever the log stream would do.  When there is no table, the
    activity is tracked as soon as [put_log_events] takes it: a
    [ClientError] of [create_log_group] or [create_log_stream] (they exist
    already) is ignored. *)
Theorem track_falls_back_for_a_missing_table_only (w : aws) (ww : aws_writes)
    (participant_name activity_type details session_id : string) :
  let activity :=
    activity_item (now w) participant_name activity_type details session_id in
  (forall e,
     get_dynamodb_table w = Ok (Some EngagementTable) ->
     put_item ww activity = Raise e ->
     track_participant_activity w ww participant_name activity_type details
       session_id =
     Ok [ ("tracked", TBool false);
          ("error", TStr ("Failed to track activity: " ++ str e));
          ("participant", TStr participant_name);
          ("activity", TStr activity_type) ]) /\
  (get_dynamodb_table w = Ok None ->
   logs_client w = Ok tt ->
   at_worst_ClientError (create_log_group ww) ->
   at_worst_ClientError (create_log_stream ww session_id) ->
   put_log_events ww session_id activity = Ok tt ->
   track_participant_activity w ww participant_name activity_type details
     session_id =
   Ok [ ("tracked", TBool true);
        ("participant", TStr participant_name);
        ("activity", TStr activity_type);
        ("storage", TStr "CloudWatch Logs");
        ("session_id", TStr session_id) ]).
Proof.
  intros activity. unfold track_participant_activity, store_activity.
  fold activity. split.
  - intros e -> ->. reflexivity.
  - intros -> -> Hgroup Hstream ->. simpl.
    unfold at_worst_ClientError in *.
    destruct (create_log_group ww) as [[]|e1]; simpl;
      [|rewrite Hgroup; simpl];
      (destruct (create_log_stream ww session_id) as [[]|e2]; simpl;
       [|rewrite Hstream; simpl]); reflexivity.
Qed.

Lemma track_falls_back_for_a_missing_table_only_witness :
  track_participant_activity
    (table_with []) writes_to_existing_stream "Alice" "question" "" "s1" =
  Ok [ ("tracked", TBool false);
       ("error", TStr "Failed to track activity: ValidationException");
       ("participant", TStr "Alice");
       ("activity", TStr "question") ] /\
  track_participant_activity
    (logs_with []) writes_to_existing_stream "Alice" "question" "" "s1" =
  Ok [ ("tracked", TBool true);
       ("participant", TStr "Alice");
       ("activity", TStr "question");
       ("storage", TStr "CloudWatch Logs");
       ("session_id", TStr "s1") ].
Proof.
  split.
  - apply (proj1 (track_falls_back_for_a_missing_table_only
                    (table_with []) writes_to_existing_stream
                    "Alice" "question" "" "s1")
             (ClientError "ValidationException")); reflexivity.
  - apply (proj2 (track_falls_back_for_a_missing_table_only
                    (logs_with []) writes_to_existing_stream
                    "Alice" "question" "" "s1")); reflexivity.
Defined.

(** ** Sending a message *)

Lemma truthy_str_Some arn : arn <> "" -> truthy_str (Some arn) = Some arn.
Proof. destruct arn; [congruence | reflexivity]. Qed.

Lemma truthy_list_Some {A : Type} (l : list A) :
  l <> [] -> truthy_list (Some l) = Some l.
Proof. destruct l; [congruence | reflexivity]. Qed.

Lemma for_each_send_one n message emails message_ids :
  Forall (fun email => at_worst_ClientError (publish_number n email message))
    emails ->
  for_each (send_one n message) emails message_ids =
  Ok (message_ids ++ accepted n message emails).
Proof.
  intros Hall. revert message_ids.
  induction Hall as [|email emails Hemail _ IH]; intros ids; simpl.
  - now rewrite app_nil_r.
  - unfold send_one at 1. unfold at_worst_ClientError in Hemail.
    destruct (publish_number n email message) as [id|e]; simpl.
    + rewrite IH. now rewrite <- app_assoc.
    + rewrite Hemail. simpl. apply IH.
Qed.

Lemma for_each_send_one_aborts n message before email after message_ids e :
  Forall (fun email => at_worst_ClientError (publish_number n email message))
    before ->
  publish_number n email message = Raise e ->
  is_ClientError e = false ->
  for_each (send_one n message) (before ++ email :: after) message_ids =
  Raise e.
Proof.
  intros Hall Hraise Hother. revert message_ids.
  induction Hall as [|x before Hx _ IH]; intros ids; simpl.
  - unfold send_one. rewrite Hraise. simpl. now rewrite Hother.
  - unfold send_one at 1. unfold at_worst_ClientError in Hx.
    destruct (publish_number n x message) as [id|e']; simpl.
    + apply IH.
    + rewrite Hx. simpl. apply IH.
Qed.

Lemma accepted_length n message emails :
  (List.length (accepted n message emails) <= List.length emails)%nat.
Proof.
  unfold accepted. induction emails as [|email emails IH]; simpl; [lia|].
  rewrite length_app.
  destruct (publish_number n email message); simpl; lia.
Qed.

(** X14.  Without a topic, the message goes to the addresses one by one.
    An address that SNS rejects with a [ClientError] is passed over: the
    report is "sent", [message_ids] are the ids of the addresses that were
    accepted, in their order, and [recipients] is their number, which may
    be 0. *)
Theorem message_to_addresses (n : sns) (message : string)
    (emails : list string) (topic_arn : option string) :
  sns_client n = Ok tt ->
  truthy_str topic_arn = None ->
  emails <> [] ->
  Forall (fun email => at_worst_ClientError (publish_number n email message))
    emails ->
  send_workshop_message n message (Some emails) topic_arn =
    Ok (JObj [ ("status", JStr "sent");
               ("method", JStr "Individual SNS");
               ("message_ids", JList (map JStr (accepted n message emails)));
               ("recipients", JInt (len (accepted n message emails)));
               ("timestamp", JStr (sns_now n)) ]) /\
  0 <= len (accepted n message emails) <= len emails.
Proof.
  intros Hclient Htopic Hne Hall. split.
  - unfold send_workshop_message.
    rewrite Hclient, Htopic, (truthy_list_Some _ Hne). simpl.
    now rewrite (for_each_send_one _ _ _ [] Hall).
  - unfold len. pose proof (accepted_length n message emails). lia.
Qed.

Lemma message_to_addresses_witness :
  send_workshop_message sns_for_us_numbers "Lab 2 starts"
    (Some ["+15550100"; "bob@example.com"; "+15550101"]) None =
    Ok (JObj [ ("status", JStr "sent");
               ("method", JStr "Individual SNS");
               ("message_ids",
                JList [JStr "id-+15550100"; JStr "id-+15550101"]);
               ("recipients", JInt 2);
               ("timestamp", JStr "2024-05-01T12:00:00.000000") ]) /\
  0 <= 2 <= 3.
Proof.
  apply (message_to_addresses sns_for_us_numbers "Lab 2 starts"
           ["+15550100"; "bob@example.com"; "+15550101"] None).
  - reflexivity.
  - reflexivity.
  - discriminate.
  - repeat constructor.
Defined.

(** X15.  A failure that is not a [ClientError] at one address turns the
    whole report into an error: the ids of the messages already sent to
    the addresses before it are not reported. *)
Theorem one_failure_hides_the_sent_messages (n : sns) (message : string)
    (before after : list string) (email : string)
    (topic_arn : option string) (e : exn) :
  sns_client n = Ok tt ->
  truthy_str topic_arn = None ->
  Forall (fun email => at_worst_ClientError (publish_number n email message))
    before ->
  publish_number n email message = Raise e ->
  is_ClientError e = false ->
  send_workshop_message n message (Some (before ++ email :: after)) topic_arn =
    Ok (JObj [ ("status", JStr "error");
               ("error", JStr ("Failed to send message: " ++ str e));
               ("timestamp", JStr (sns_now n)) ]).
Proof.
  intros Hclient Htopic Hall Hraise Hother.
  unfold send_workshop_message.
  rewrite Hclient, Htopic, truthy_list_Some by now destruct before.
  simpl.
  now rewrite (for_each_send_one_aborts _ _ _ _ _ _ _ Hall Hraise Hother).
Qed.

Lemma one_failure_hides_the_sent_messages_witness :
  send_workshop_message sns_with_outage "Lab 2 starts"
    (Some (["+15550100"; "bob@example.com"] ++ "+445550100" :: ["+15550101"]))
    None =
    Ok (JObj [ ("status", JStr "error");
               ("error",
                JStr "Failed to send message: Could not connect to the endpoint URL");
               ("timestamp", JStr "2024-05-01T12:00:00.000000") ]).
Proof.
  apply (one_failure_hides_the_sent_messages sns_with_outage "Lab 2 starts"
           ["+15550100"; "bob@example.com"] ["+15550101"] "+445550100" None
           (OtherError "Could not connect to the endpoint URL")).
  - reflexivity.
  - reflexivity.
  - repeat constructor.
  - reflexivity.
  - reflexivity.
Defined.

(** X16.  [send_workshop_message] never raises.  A topic that is not empty
    takes precedence: the addresses are not used.  Without a topic and
    without addresses ([None] or empty) the report is the error "No
    recipients specified". *)
Theorem message_dispatch (n : sns) (message : string)
    (participant_emails : option (list string)) (topic_arn : option string) :
  (exists r, send_workshop_message n message participant_emails topic_arn
             = Ok r) /\
  (forall arn,
     topic_arn = Some arn -> arn <> "" -> sns_client n = Ok tt ->
     send_workshop_message n message participant_emails topic_arn =
     match publish_topic n arn message with
     | Ok message_id =>
         Ok (JObj [ ("status", JStr "sent");
                    ("method", JStr "SNS Topic");
                    ("message_id", JStr message_id);
                    ("timestamp", JStr (sns_now n)) ])
     | Raise e =>
         Ok (JObj [ ("status", JStr "error");
                    ("error", JStr ("Failed to send message: " ++ str e));
                    ("timestamp", JStr (sns_now n)) ])
     end) /\
  (truthy_str topic_arn = None ->
   truthy_list participant_emails = None ->
   sns_client n = Ok tt ->
   send_workshop_message n message participant_emails topic_arn =
   Ok (JObj [ ("status", JStr "error");
              ("error",
               JStr "No recipients specified (topic_arn or participant_emails required)");
              ("timestamp", JStr (sns_now n)) ])).
Proof.
  unfold send_workshop_message. split; [|split].
  - destruct (sns_client n) as [[]|e]; simpl; [|eauto].
    destruct (truthy_str topic_arn) as [arn|].
    + destruct (publish_topic n arn message); simpl; eauto.
    + destruct (truthy_list participant_emails) as [emails|]; [|simpl; eauto].
      destruct (for_each (send_one n message) emails []); simpl; eauto.
  - intros arn -> Harn ->. rewrite (truthy_str_Some _ Harn). simpl.
    now destruct (publish_topic n arn message).
  - intros -> -> ->. reflexivity.
Qed.

Lemma message_dispatch_witness :
  send_workshop_message sns_for_us_numbers "Lab 2 starts"
    (Some ["+15550100"]) (Some "arn:aws:sns:workshop") =
  Ok (JObj [ ("status", JStr "sent");
             ("method", JStr "SNS Topic");
             ("message_id", JStr "topic-arn:aws:sns:workshop");
             ("timestamp", JStr "2024-05-01T12:00:00.000000") ]) /\
  send_workshop_message sns_for_us_numbers "Lab 2 starts" (Some []) (Some "") =
  Ok (JObj [ ("status", JStr "error");
             ("error",
              JStr "No recipients specified (topic_arn or participant_emails required)");
             ("timestamp", JStr "2024-05-01T12:00:00.000000") ]).
Proof.
  split.
  - apply (proj1 (proj2 (message_dispatch sns_for_us_numbers "Lab 2 starts"
                           (Some ["+15550100"]) (Some "arn:aws:sns:workshop")))
             "arn:aws:sns:workshop"); [reflexivity | discriminate | reflexivity].
  - apply (proj2 (proj2 (message_dispatch sns_for_us_numbers "Lab 2 starts"
                           (Some []) (Some "")))); reflexivity.
Defined.

(** ** The statistics *)

Lemma ltb_ts_le x m : String.ltb x m = true -> ts_le x m.
Proof.
  unfold String.ltb, ts_le, String.leb.
  now destruct (String.compare x m).
Qed.

Lemma not_ltb_ts_le x m : String.ltb x m = false -> ts_le m x.
Proof.
  unfold String.ltb, ts_le, String.leb. rewrite (String.compare_antisym m x).
  now destruct (String.compare x m).
Qed.

Lemma py_min_In m l : In (py_min m l) (m :: l).
Proof.
  revert m. induction l as [|x l IH]; intros m; simpl; [now left|].
  destruct (IH (if String.ltb x m then x else m)) as [E|Hin].
  - rewrite <- E. destruct (String.ltb x m); auto.
  - auto.
Qed.

Lemma py_min_least m l x : In x (m :: l) -> ts_le (py_min m l) x.
Proof.
  revert m x. induction l as [|y l IH]; intros m x; simpl.
  - intros [<-|[]]. apply ts_le_refl.
  - set (m' := if String.ltb y m then y else m).
    assert (Hm : ts_le m' m).
    { subst m'. destruct (String.ltb y m) eqn:E;
        [now apply ltb_ts_le | apply ts_le_refl]. }
    assert (Hy : ts_le m' y).
    { subst m'. destruct (String.ltb y m) eqn:E;
        [apply ts_le_refl | now apply not_ltb_ts_le]. }
    intros [<-|[<-|Hin]].
    + eapply ts_le_trans; [|exact Hm]. apply IH. now left.
    + eapply ts_le_trans; [|exact Hy]. apply IH. now left.
    + apply IH. now right.
Qed.

Lemma join_times_of_summaries participants times :
  for_each
    (fun times p =>
       join_time <- subscript p "join_time" ;;
       s <- as_str join_time ;;
       Ok (times ++ [s]))
    (map summary_json participants) times =
  Ok (times ++ map join_time participants).
Proof.
  revert times. induction participants as [|p ps IH]; intros times; simpl.
  - now rewrite app_nil_r.
  - rewrite IH. now rewrite <- app_assoc.
Qed.

Lemma get_counts_json counts k :
  get (map (fun kv : string * Z => (fst kv, JInt (snd kv))) counts) k (JInt 0)
  = JInt (get counts k 0).
Proof.
  unfold get. change (map _ counts) with (map_values JInt counts).
  rewrite lookup_map_values. now destruct (lookup counts k).
Qed.

Lemma read_gives_table w sid acts :
  read_activities w sid = Ok acts -> exists tbl, get_dynamodb_table w = Ok tbl.
Proof.
  unfold read_activities. destruct (get_dynamodb_table w); [eauto|discriminate].
Qed.

Lemma participants_fails w sid e :
  read_activities w sid = Raise e ->
  get_participants w sid = Ok (participants_failure w e).
Proof.
  intros Hread. unfold get_participants.
  now rewrite collect_participants_read, Hread.
Qed.

(** When reading the records raises, the failure report of the analytics
    has no [activity_breakdown], and the error of the statistics is that
    [KeyError]. *)
Lemma stats_when_the_read_raises (w : aws) (c : stats_clock) (sid : string)
    (e : exn) :
  read_activities w sid = Raise e ->
  get_workshop_stats w c sid =
  Ok (JObj [ ("session_id", JStr sid);
             ("error",
              JStr "Failed to get workshop stats: 'activity_breakdown'");
             ("timestamp", JStr (error_now c)) ]).
Proof.
  intros Hread. unfold get_workshop_stats.
  rewrite (participants_fails _ _ _ Hread), (analytics_fails _ _ _ Hread).
  reflexivity.
Qed.

Lemma stats_of_no_record (w : aws) (c : stats_clock) (sid : string) tbl :
  get_dynamodb_table w = Ok tbl ->
  read_activities w sid = Ok [] ->
  exists r,
    get_workshop_stats w c sid = Ok r /\
    field r "error" = None /\
    at_path r ["session_info"; "duration_minutes"] = Some (JInt 0) /\
    at_path r ["participation"; "total_participants"] = Some (JInt 0) /\
    at_path r ["engagement"; "total_activities"] = Some (JInt 0).
Proof.
  intros Htbl Hread. unfold get_workshop_stats.
  rewrite (participants_returns w sid [] Hread),
    (analytics_returns _ _ _ Hread).
  cbn. rewrite Htbl. cbn.
  eexists. split; [reflexivity|]. repeat split; reflexivity.
Qed.

(** X17.  [get_workshop_stats] does not raise, and it does not report why
    the records could not be read.  When the table cannot be obtained, when
    its query raises, or when, without a table, the log client or the read
    of the log stream raises anything but a [ClientError], the failure
    report of the analytics has no [activity_breakdown] and the error of
    the statistics is that [KeyError], whatever the cause.  A [ClientError]
    of [get_log_events] is swallowed by both operations: the statistics are
    then those of a session without records, with no error. *)
Theorem stats_mask_a_failed_read (w : aws) (c : stats_clock) (sid : string)
    (e : exn) :
  let masked :=
    Ok (JObj [ ("session_id", JStr sid);
               ("error",
                JStr "Failed to get workshop stats: 'activity_breakdown'");
               ("timestamp", JStr (error_now c)) ]) in
  (get_dynamodb_table w = Raise e -> get_workshop_stats w c sid = masked) /\
  (get_dynamodb_table w = Ok (Some EngagementTable) ->
   table_query w sid = Raise e ->
   get_workshop_stats w c sid = masked) /\
  (get_dynamodb_table w = Ok None ->
   logs_client w = Raise e ->
   get_workshop_stats w c sid = masked) /\
  (get_dynamodb_table w = Ok None ->
   logs_client w = Ok tt ->
   get_log_events w sid = Raise e ->
   if is_ClientError e then
     exists r,
       get_workshop_stats w c sid = Ok r /\
       field r "error" = None /\
       at_path r ["session_info"; "duration_minutes"] = Some (JInt 0) /\
       at_path r ["participation"; "total_participants"] = Some (JInt 0) /\
       at_path r ["engagement"; "total_activities"] = Some (JInt 0)
   else get_workshop_stats w c sid = masked).
Proof.
  intros masked. split; [|split; [|split]].
  - intros Htbl. apply (stats_when_the_read_raises w c sid e).
    unfold read_activities. now rewrite Htbl.
  - intros Htbl Hquery. apply (stats_when_the_read_raises w c sid e).
    unfold read_activities. now rewrite Htbl.
  - intros Htbl Hclient. apply (stats_when_the_read_raises w c sid e).
    unfold read_activities. rewrite Htbl. simpl. now rewrite Hclient.
  - intros Htbl Hclient Hevents.
    destruct (is_ClientError e) eqn:He.
    + apply (stats_of_no_record w c sid None Htbl).
      unfold read_activities. rewrite Htbl. simpl.
      rewrite Hclient, Hevents. simpl. now rewrite He.
    + apply (stats_when_the_read_raises w c sid e).
      unfold read_activities. rewrite Htbl. simpl.
      rewrite Hclient, Hevents. simpl. now rewrite He.
Qed.

Lemma stats_mask_a_failed_read_witness :
  get_workshop_stats (table_failing (ClientError "AccessDeniedException"))
    clock_at_noon "s1" =
  Ok (JObj [ ("session_id", JStr "s1");
             ("error",
              JStr "Failed to get workshop stats: 'activity_breakdown'");
             ("timestamp", JStr "2024-05-01T12:00:00.000004") ]) /\
  get_workshop_stats (logs_failing (OtherError "timed out"))
    clock_at_noon "s1" =
  Ok (JObj [ ("session_id", JStr "s1");
             ("error",
              JStr "Failed to get workshop stats: 'activity_breakdown'");
             ("timestamp", JStr "2024-05-01T12:00:00.000004") ]) /\
  exists r,
    get_workshop_stats (logs_failing (ClientError "AccessDeniedException"))
      clock_at_noon "s1" = Ok r /\
    field r "error" = None /\
    at_path r ["session_info"; "duration_minutes"] = Some (JInt 0) /\
    at_path r ["participation"; "total_participants"] = Some (JInt 0) /\
    at_path r ["engagement"; "total_activities"] = Some (JInt 0).
Proof.
  split; [|split].
  - apply (proj1 (proj2 (stats_mask_a_failed_read
                           (table_failing (ClientError "AccessDeniedException"))
                           clock_at_noon "s1"
                           (ClientError "AccessDeniedException"))));
      reflexivity.
  - apply (proj2 (proj2 (proj2 (stats_mask_a_failed_read
                                  (logs_failing (OtherError "timed out"))
                                  clock_at_noon "s1"
                                  (OtherError "timed out")))));
      reflexivity.
  - apply (proj2 (proj2 (proj2 (stats_mask_a_failed_read
                                  (logs_failing
                                     (ClientError "AccessDeniedException"))
                                  clock_at_noon "s1"
                                  (ClientError "AccessDeniedException")))));
      reflexivity.
Defined.

Ltac run_stats :=
  cbn [bind try_except subscript getitem lookup String.eqb Ascii.eqb Bool.eqb
       as_list json_get counts_json fst snd is_Exception].

(** X18.  On the tracked records of a session that has some,
    [get_workshop_stats] takes the least [join_time] of the listing as
    [start_time], which is the timestamp of a record of the session and,
    when the store returns the records in the order of their timestamps,
    the earliest of all.  When the clock cannot tell the minutes since that
    time, the statistics are the error report; otherwise the sections
    repeat the two reports: the three participant numbers are the number
    of distinct participants, and the engagement numbers are the number of
    records, of questions, of chat messages and the score. *)
Theorem stats_of_a_session (w : aws) (c : stats_clock) (sid : string)
    (recs : list tracked) :
  read_activities w sid = Ok (map (tracked_item sid) recs) ->
  recs <> [] ->
  let names := map t_participant recs in
  let kinds := map t_activity recs in
  exists start,
    In start (map t_timestamp recs) /\
    (Sorted ts_le (map t_timestamp recs) ->
     forall t, In t recs -> ts_le start (t_timestamp t)) /\
    match minutes_since c start with
    | Raise e =>
        get_workshop_stats w c sid =
        Ok (JObj [ ("session_id", JStr sid);
                   ("error",
                    JStr ("Failed to get workshop stats: " ++ str e));
                   ("timestamp", JStr (error_now c)) ])
    | Ok minutes =>
        exists r,
          get_workshop_stats w c sid = Ok r /\
          at_path r ["session_info"; "start_time"] = Some (JStr start) /\
          at_path r ["session_info"; "duration_minutes"] =
            Some (JInt minutes) /\
          at_path r ["participation"; "currently_joined"] =
            Some (JInt (distinct names)) /\
          at_path r ["participation"; "total_participants"] =
            Some (JInt (distinct names)) /\
          at_path r ["participation"; "peak_attendance"] =
            Some (JInt (distinct names)) /\
          at_path r ["engagement"; "total_activities"] =
            Some (JInt (len recs)) /\
          at_path r ["engagement"; "questions_asked"] =
            Some (JInt (count "question" kinds)) /\
          at_path r ["engagement"; "chat_messages"] =
            Some (JInt (count "chat_message" kinds)) /\
          at_path r ["engagement"; "engagement_score"] =
            Some (JInt (engagement_score (len recs) (distinct names)))
    end.
Proof.
  intros Hread Hne names kinds.
  destruct (read_gives_table _ _ _ Hread) as [tbl Htbl].
  destruct (values (replay recs)) as [|s ps] eqn:Hvalues.
  { exfalso. pose proof (replay_len recs) as Hl. rewrite Hvalues in Hl.
    symmetry in Hl. apply distinct_zero in Hl.
    destruct recs; [congruence | discriminate]. }
  set (start := py_min (join_time s) (map join_time ps)).
  assert (Hleast : forall sp, In sp (values (replay recs)) ->
            ts_le start (join_time sp)).
  { intros sp Hsp. apply py_min_least.
    change (In (join_time sp) (map join_time (s :: ps))).
    rewrite <- Hvalues. now apply in_map. }
  exists start. split; [|split].
  - assert (Hin : In start (map join_time (values (replay recs))))
      by (rewrite Hvalues; apply py_min_In).
    apply in_map_iff in Hin as (s0 & Hjoin & Hs0).
    apply replay_values_In in Hs0 as (first & last & Hfirst & _ & Hs0).
    apply find_some in Hfirst as [Hfirst _].
    rewrite <- Hjoin, Hs0. cbn [join_time]. now apply in_map.
  - intros Hsorted t Ht. apply chronological in Hsorted.
    destruct (lookup (replay recs) (t_participant t)) as [sp|] eqn:E.
    + pose proof (lookup_Some_In _ _ _ E) as Hsp.
      apply replay_lookup_Some in E as (first & last & Hfirst & _ & Hsp_eq).
      eapply ts_le_trans.
      * apply (Hleast sp). change sp with (snd (t_participant t, sp)).
        now apply in_map.
      * rewrite Hsp_eq. cbn [join_time].
        apply (find_is_least
                 (fun a b => ts_le (t_timestamp a) (t_timestamp b))
                 (by_participant (t_participant t)) (fun x => ts_le_refl _)
                 recs first t); try assumption.
        apply String.eqb_refl.
    + exfalso. apply lookup_None_keys in E. apply E, replay_keys_In.
      now apply in_map.
  - unfold get_workshop_stats.
    rewrite (participants_returns _ _ _ Hread), (analytics_returns _ _ _ Hread).
    rewrite analytics_report_tally. cbv zeta. unfold participants_report.
    rewrite replay_all_active, replay_len, tally_len, !map_map.
    change (map (fun x => participant_of (tracked_item sid x)) recs)
      with names.
    change (map (fun x => activity_of (tracked_item sid x)) recs) with kinds.
    replace (len (map (tracked_item sid) recs)) with (len recs)
      by (unfold len; now rewrite length_map).
    rewrite Hvalues. run_stats.
    unfold join_times. rewrite join_times_of_summaries.
    cbn [bind app hd tl map]. fold start.
    destruct (minutes_since c start) as [minutes|e]; run_stats;
      [|reflexivity].
    rewrite Htbl. run_stats. rewrite !get_counts_json, !tally_get.
    eexists. split; [reflexivity|]. repeat split; reflexivity.
Qed.

Lemma stats_of_a_session_witness :
  exists start,
    In start (map t_timestamp three_records) /\
    (Sorted ts_le (map t_timestamp three_records) ->
     forall t, In t three_records -> ts_le start (t_timestamp t)) /\
    match minutes_since clock_at_noon start with
    | Raise e =>
        get_workshop_stats
          (table_with (map (tracked_item "s1") three_records))
          clock_at_noon "s1" =
        Ok (JObj [ ("session_id", JStr "s1");
                   ("error",
                    JStr ("Failed to get workshop stats: " ++ str e));
                   ("timestamp", JStr (error_now clock_at_noon)) ])
    | Ok minutes =>
        exists r,
          get_workshop_stats
            (table_with (map (tracked_item "s1") three_records))
            clock_at_noon "s1" = Ok r /\
          at_path r ["session_info"; "start_time"] = Some (JStr start) /\
          at_path r ["session_info"; "duration_minutes"] =
            Some (JInt minutes) /\
          at_path r ["participation"; "currently_joined"] =
            Some (JInt (distinct ["Alice"; "Bob"; "Alice"])) /\
          at_path r ["participation"; "total_participants"] =
            Some (JInt (distinct ["Alice"; "Bob"; "Alice"])) /\
          at_path r ["participation"; "peak_attendance"] =
            Some (JInt (distinct ["Alice"; "Bob"; "Alice"])) /\
          at_path r ["engagement"; "total_activities"] =
            Some (JInt (len three_records)) /\
          at_path r ["engagement"; "questions_asked"] =
            Some (JInt (count "question"
                          ["question"; "chat_message"; "chat_message"])) /\
          at_path r ["engagement"; "chat_messages"] =
            Some (JInt (count "chat_message"
                          ["question"; "chat_message"; "chat_message"])) /\
          at_path r ["engagement"; "engagement_score"] =
            Some (JInt (engagement_score (len three_records)
                          (distinct ["Alice"; "Bob"; "Alice"])))
    end.
Proof.
  apply (stats_of_a_session
           (table_with (map (tracked_item "s1") three_records))
           clock_at_noon "s1" three_records).
  - reflexivity.
  - discriminate.
Defined.

(** X19.  When the listing names nobody, because the session has no record
    or because a record lacks an entry that the listing subscripts, the
    statistics do not consult the clock for a duration: [duration_minutes]
    is 0, [start_time] is the present reading, and the participant numbers
    are 0, while the engagement section still counts every record read. *)
Theorem stats_without_listing (w : aws) (c : stats_clock) (sid : string)
    (acts : list item) :
  read_activities w sid = Ok acts ->
  acts = [] \/ ~ Forall has_keys acts ->
  exists r,
    get_workshop_stats w c sid = Ok r /\
    at_path r ["session_info"; "start_time"] = Some (JStr (start_now c)) /\
    at_path r ["session_info"; "duration_minutes"] = Some (JInt 0) /\
    at_path r ["participation"; "currently_joined"] = Some (JInt 0) /\
    at_path r ["participation"; "total_participants"] = Some (JInt 0) /\
    at_path r ["engagement"; "total_activities"] = Some (JInt (len acts)) /\
    at_path r ["engagement"; "engagement_score"] =
      Some (JInt (engagement_score (len acts)
                    (distinct (map participant_of acts)))).
Proof.
  intros Hread Hcase.
  destruct (read_gives_table _ _ _ Hread) as [tbl Htbl].
  assert (Hlisting : exists listing,
            get_participants w sid = Ok listing /\
            subscript listing "participants" = Ok (JList []) /\
            subscript listing "active_count" = Ok (JInt 0) /\
            subscript listing "total_participants" = Ok (JInt 0)).
  { unfold get_participants. rewrite collect_participants_read, Hread.
    cbn [bind]. destruct Hcase as [-> | Hno].
    - simpl. eexists. repeat split; reflexivity.
    - destruct (for_each_fold_item_missing_key acts [] Hno) as (k & -> & _).
      simpl. eexists. repeat split; reflexivity. }
  destruct Hlisting as (listing & Hlisting & Hps & Hactive & Htotal).
  unfold get_workshop_stats.
  rewrite Hlisting, (analytics_returns _ _ _ Hread), analytics_report_tally.
  cbv zeta. cbn [bind]. rewrite Hps. cbn [bind as_list].
  rewrite Hactive, Htotal. run_stats. rewrite Htbl. run_stats.
  rewrite tally_len.
  eexists. split; [reflexivity|]. repeat split; reflexivity.
Qed.

Lemma stats_without_listing_witness :
  let acts := [[("participant", "Bob"); ("activity", "chat_message")]] in
  (acts = [] \/ ~ Forall has_keys acts) /\
  exists r,
    get_workshop_stats (table_with acts) clock_at_noon "s1" = Ok r /\
    at_path r ["session_info"; "start_time"] =
      Some (JStr (start_now clock_at_noon)) /\
    at_path r ["session_info"; "duration_minutes"] = Some (JInt 0) /\
    at_path r ["participation"; "currently_joined"] = Some (JInt 0) /\
    at_path r ["participation"; "total_participants"] = Some (JInt 0) /\
    at_path r ["engagement"; "total_activities"] = Some (JInt (len acts)) /\
    at_path r ["engagement"; "engagement_score"] =
      Some (JInt (engagement_score (len acts)
                    (distinct (map participant_of acts)))).
Proof.
  cbv zeta.
  assert (Hno : ~ Forall has_keys
                    [[("participant", "Bob"); ("activity", "chat_message")]]).
  { intros Hall. inversion Hall as [|? ? [_ Hts] _]; subst. now apply Hts. }
  split; [now right|].
  apply (stats_without_listing (table_with _) clock_at_noon "s1");
    [reflexivity | now right].
Defined.

(** ** What the question and chat lines say about the records *)

Lemma recommend_questions score question_count chat_count :
  (In "Many questions being asked - consider extending Q&A time"
     (recommend score question_count chat_count) <-> 5 < question_count) /\
  (In "Few questions - consider prompting for questions"
     (recommend score question_count chat_count) <-> question_count < 2).
Proof.
  unfold recommend.
  destruct (70 <? score), (score <? 30),
    (Z.ltb_spec 5 question_count), (Z.ltb_spec question_count 2),
    (10 <? chat_count);
    (split; split; intros Hin; [in_lines; lia | simpl; try lia; auto 6
                                 | in_lines; lia | simpl; try lia; auto 6]).
Qed.

Lemma recommend_chat score question_count chat_count :
  (In "Good chat interaction" (recommend score question_count chat_count)
   <-> 10 < chat_count) /\
  (In "Encourage more chat participation"
     (recommend score question_count chat_count) <-> chat_count <= 10).
Proof.
  unfold recommend.
  destruct (70 <? score), (score <? 30), (5 <? question_count),
    (question_count <? 2), (Z.ltb_spec 10 chat_count);
    (split; split; intros Hin; [in_lines; lia | simpl; try lia; auto 6
                                 | in_lines; lia | simpl; try lia; auto 6]).
Qed.

(** X20.  The question and chat lines of the recommendations count
    records: "extending Q&A time" is advised exactly when more than 5
    records have the activity "question", "prompting for questions" exactly
    when fewer than 2 have it, and the chat interaction is called good
    exactly when more than 10 records have the activity "chat_message". *)
Theorem question_and_chat_lines (w : aws) (sid : string) (acts : list item) :
  read_activities w sid = Ok acts ->
  let kinds := map activity_of acts in
  exists r lines,
    get_engagement_analytics w sid = Ok r /\
    field r "recommendations" = Some (JList (map JStr lines)) /\
    (In "Many questions being asked - consider extending Q&A time" lines
     <-> 5 < count "question" kinds) /\
    (In "Few questions - consider prompting for questions" lines
     <-> count "question" kinds < 2) /\
    (In "Good chat interaction" lines
     <-> 10 < count "chat_message" kinds) /\
    (In "Encourage more chat participation" lines
     <-> count "chat_message" kinds <= 10).
Proof.
  intros Hread kinds.
  exists (analytics_report w sid acts).
  rewrite analytics_report_tally. cbv zeta. fold kinds.
  rewrite !tally_get.
  eexists.
  split; [rewrite <- !tally_get; unfold kinds;
          rewrite <- analytics_report_tally; now apply analytics_returns|].
  split; [reflexivity|].
  split; [apply recommend_questions|].
  split; [apply recommend_questions|].
  split; apply recommend_chat.
Qed.

Lemma question_and_chat_lines_witness :
  let kinds := ["question"; "chat_message"; "chat_message"] in
  exists r lines,
    get_engagement_analytics
      (table_with (map (tracked_item "s1") three_records)) "s1" = Ok r /\
    field r "recommendations" = Some (JList (map JStr lines)) /\
    (In "Many questions being asked - consider extending Q&A time" lines
     <-> 5 < count "question" kinds) /\
    (In "Few questions - consider prompting for questions" lines
     <-> count "question" kinds < 2) /\
    (In "Good chat interaction" lines
     <-> 10 < count "chat_message" kinds) /\
    (In "Encourage more chat participation" lines
     <-> count "chat_message" kinds <= 10).
Proof.
  apply (question_and_chat_lines
           (table_with (map (tracked_item "s1") three_records)) "s1"
           (map (tracked_item "s1") three_records)).
  reflexivity.
Defined.

(** * Track calls and what the storages keep of them *)

(** With a table, the report of a call is decided by what [put_item] does
    with the activity of the call. *)
Lemma track_hands_over_the_activity (w : aws) (ww : aws_writes) (c : call) :
  get_dynamodb_table w = Ok (Some EngagementTable) ->
  now w = at_clock c ->
  track_participant_activity w ww (c_participant c) (c_activity c)
    (c_details c) (c_session c) =
  match put_item ww (activity_of_call c) with
  | Ok _ =>
      Ok [ ("tracked", TBool true);
           ("participant", TStr (c_participant c));
           ("activity", TStr (c_activity c));
           ("storage", TStr "DynamoDB");
           ("session_id", TStr (c_session c)) ]
  | Raise e =>
      Ok [ ("tracked", TBool false);
           ("error", TStr ("Failed to track activity: " ++ str e));
           ("participant", TStr (c_participant c));
           ("activity", TStr (c_activity c)) ]
  end.
Proof.
  intros Htable Hnow.
  unfold track_participant_activity, store_activity, activity_of_call.
  rewrite Htable, Hnow. simpl.
  now destruct (put_item ww _).
Qed.

(** C3.  The listing does not count every track call.  Two calls for Alice
    in session "s1" at one reading of the clock have the same key in the
    table, the item of the second replaces that of the first, and
    [get_participants] lists Alice with [activity_count] 1.  On the log
    stream, which keeps both events, the same calls give [activity_count]
    2. *)
Theorem track_calls_at_one_clock_reading :
  map c_participant calls_at_one_reading = ["Alice"; "Alice"] /\
  map c_session calls_at_one_reading = ["s1"; "s1"] /\
  (exists r j,
     get_participants
       (aws_on_table (table_after calls_at_one_reading)
          "2024-05-01T12:00:00.125000") "s1" = Ok r /\
     field r "participants" = Some (JList [j]) /\
     field j "name" = Some (JStr "Alice") /\
     field j "activity_count" = Some (JInt 1)) /\
  (exists r j,
     get_participants
       (aws_on_stream (stream_after calls_at_one_reading)
          "2024-05-01T12:00:00.125000") "s1" = Ok r /\
     field r "participants" = Some (JList [j]) /\
     field j "name" = Some (JStr "Alice") /\
     field j "activity_count" = Some (JInt 2)).
Proof.
  split; [reflexivity|]. split; [reflexivity|].
  split; eexists; eexists; repeat split; reflexivity.
Qed.

Lemma counts_every_record_perm r names names' :
  Permutation names names' ->
  counts_every_record r names -> counts_every_record r names'.
Proof.
  intros Hperm (entries & ps & Hr & Hnames & Hcounts & Hnd & Hin).
  exists entries, ps. split; [exact Hr|]. split; [exact Hnames|].
  split; [|split; [exact Hnd|]].
  - rewrite Hcounts. apply map_ext. intros p.
    now rewrite (count_perm p _ _ Hperm).
  - intros p. rewrite Hin. split; apply Permutation_in;
      [exact Hperm | now symmetry].
Qed.

(** The listing on the tracked records that the store returns. *)
Lemma listing_counts_the_records_returned (w : aws) (sid : string)
    (recs : list tracked) :
  read_activities w sid = Ok (map (tracked_item sid) recs) ->
  exists r,
    get_participants w sid = Ok r /\
    counts_every_record r (map t_participant recs).
Proof.
  intros Hread. exists (participants_report w sid (replay recs)).
  split; [now apply participants_returns|].
  exists (map summary_json (values (replay recs))), (keys (replay recs)).
  split; [reflexivity|].
  rewrite <- replay_names, !map_map.
  split; [reflexivity|]. split.
  - apply map_ext_in. intros s0 Hin.
    apply replay_values_In in Hin as (first & last & _ & _ & ->).
    reflexivity.
  - rewrite replay_names.
    split; [apply replay_keys_NoDup | intros p; apply replay_keys_In].
Qed.

(** *** The log stream keeps every call *)

Lemma stream_after_map calls :
  stream_after calls =
  map (fun c => (c_session c, activity_of_call c)) calls.
Proof.
  unfold stream_after.
  change (map _ calls) with ([] ++ map (fun c => (c_session c, activity_of_call c)) calls).
  generalize (@nil (string * item)) as events.
  induction calls as [|c calls IH]; intros events; simpl.
  - now rewrite app_nil_r.
  - rewrite IH. unfold stream_put. now rewrite <- app_assoc.
Qed.

Lemma activity_of_call_in_session sid c :
  c_session c = sid -> activity_of_call c = tracked_item sid (call_record c).
Proof. intros <-. reflexivity. Qed.

Lemma stream_events_of_one_session sid calls :
  Forall (fun c => c_session c = sid) calls ->
  decode_events (stream_events (stream_after calls) sid) =
  map (tracked_item sid) (map call_record calls).
Proof.
  rewrite stream_after_map. unfold stream_events.
  induction 1 as [|c calls Hc _ IH]; simpl; [reflexivity|].
  rewrite Hc, String.eqb_refl. simpl.
  rewrite IH, (activity_of_call_in_session sid c Hc). reflexivity.
Qed.

(** *** The table keeps one item for each key *)

Lemma table_insert_perm record rows :
  Permutation (table_insert record rows) (record :: rows).
Proof.
  induction rows as [|row rows IH]; simpl; [reflexivity|].
  destruct (String.ltb (timestamp_of record) (timestamp_of row));
    [reflexivity|].
  rewrite IH. apply perm_swap.
Qed.

Lemma table_put_fresh rows record :
  Forall (fun row => same_key row record = false) rows ->
  table_put rows record = table_insert record rows.
Proof.
  intros Hfresh. unfold table_put. f_equal.
  apply forallb_filter_id, forallb_forall.
  rewrite Forall_forall in Hfresh. intros row Hrow.
  now rewrite (Hfresh row Hrow).
Qed.

Lemma table_after_snoc calls c :
  table_after (calls ++ [c]) = table_put (table_after calls) (activity_of_call c).
Proof. unfold table_after. now rewrite fold_left_app. Qed.

Lemma table_after_rows calls row :
  In row (table_after calls) ->
  exists c, In c calls /\ row = activity_of_call c.
Proof.
  induction calls as [|c calls IH] using rev_ind; [intros []|].
  rewrite table_after_snoc. unfold table_put. intros Hin.
  apply (Permutation_in _ (table_insert_perm _ _)) in Hin.
  destruct Hin as [<-|Hin].
  - exists c. split; [apply in_or_app; right; now left | reflexivity].
  - apply filter_In in Hin as [Hin _].
    destruct (IH Hin) as (c' & Hc' & ->).
    exists c'. split; [apply in_or_app; now left | reflexivity].
Qed.

Lemma table_after_perm calls :
  NoDup (map at_clock calls) ->
  Permutation (table_after calls) (map activity_of_call calls).
Proof.
  induction calls as [|c calls IH] using rev_ind; [reflexivity|].
  rewrite map_app. cbn [map]. intros Hnd.
  assert (Hfresh : ~ In (at_clock c) (map at_clock calls)).
  { apply NoDup_remove_2 in Hnd. now rewrite app_nil_r in Hnd. }
  assert (Hnd' : NoDup (map at_clock calls)).
  { apply NoDup_remove_1 in Hnd. now rewrite app_nil_r in Hnd. }
  rewrite table_after_snoc, table_put_fresh.
  - rewrite table_insert_perm, (IH Hnd'), map_app.
    apply Permutation_cons_append.
  - apply Forall_forall. intros row Hrow.
    apply table_after_rows in Hrow as (c' & Hc' & ->).
    unfold same_key. apply andb_false_iff. right.
    apply String.eqb_neq. intros Heq. apply Hfresh.
    change (at_clock c) with (timestamp_of (activity_of_call c)).
    rewrite <- Heq. change (timestamp_of (activity_of_call c'))
      with (at_clock c'). now apply in_map.
Qed.

Lemma table_items_of_one_session sid calls :
  Forall (fun c => c_session c = sid) calls ->
  table_items (table_after calls) sid = table_after calls.
Proof.
  intros Hsid. unfold table_items.
  apply forallb_filter_id, forallb_forall. intros row Hrow.
  apply table_after_rows in Hrow as (c & Hc & ->).
  rewrite Forall_forall in Hsid.
  change (session_of (activity_of_call c)) with (c_session c).
  rewrite (Hsid c Hc). apply String.eqb_refl.
Qed.

(** Where every call is counted: on the log stream always, on the table
    when no two calls of the session are made at the same reading of the
    clock. *)
Lemma listing_of_track_calls (calls : list call) (sid clock : string) :
  Forall (fun c => c_session c = sid) calls ->
  (exists r,
     get_participants (aws_on_stream (stream_after calls) clock) sid = Ok r /\
     counts_every_record r (map c_participant calls)) /\
  (NoDup (map at_clock calls) ->
   exists r,
     get_participants (aws_on_table (table_after calls) clock) sid = Ok r /\
     counts_every_record r (map c_participant calls)).
Proof.
  intros Hsid.
  assert (Hnames : map t_participant (map call_record calls) =
                   map c_participant calls) by now rewrite map_map.
  split.
  - rewrite <- Hnames. apply listing_counts_the_records_returned.
    unfold read_activities. cbn.
    now rewrite (stream_events_of_one_session sid calls Hsid).
  - intros Hnd.
    assert (Hperm : Permutation (table_after calls)
                      (map (tracked_item sid) (map call_record calls))).
    { rewrite (table_after_perm calls Hnd), map_map.
      erewrite map_ext_in; [reflexivity|].
      intros c Hc. rewrite Forall_forall in Hsid.
      now apply activity_of_call_in_session, Hsid. }
    apply Permutation_map_inv in Hperm as (recs & Hrows & Hrecs).
    destruct (listing_counts_the_records_returned
                (aws_on_table (table_after calls) clock) sid recs)
      as (r & Hr & Hcounts).
    { unfold read_activities. cbn.
      now rewrite (table_items_of_one_session sid calls Hsid), Hrows. }
    exists r. split; [exact Hr|].
    apply (counts_every_record_perm r (map t_participant recs)); [|exact Hcounts].
    rewrite <- Hnames. apply Permutation_map. now symmetry.
Qed.

(** *** The table returns its items in the order of their timestamps *)

Lemma table_insert_sorted record rows :
  StronglySorted by_timestamp rows ->
  StronglySorted by_timestamp (table_insert record rows).
Proof.
  induction 1 as [|row rows Hs IH Hrow]; simpl.
  - repeat constructor.
  - destruct (String.ltb (timestamp_of record) (timestamp_of row)) eqn:E.
    + constructor; [now constructor|].
      apply ltb_ts_le in E. constructor; [exact E|].
      rewrite Forall_forall in *. intros x Hx.
      eapply ts_le_trans; [exact E | now apply Hrow].
    + constructor; [exact IH|].
      eapply Permutation_Forall; [symmetry; apply table_insert_perm|].
      constructor; [now apply not_ltb_ts_le | exact Hrow].
Qed.

Lemma filter_sorted (keep : item -> bool) rows :
  StronglySorted by_timestamp rows ->
  StronglySorted by_timestamp (filter keep rows).
Proof.
  induction 1 as [|row rows Hs IH Hrow]; simpl; [constructor|].
  destruct (keep row); [|exact IH].
  constructor; [exact IH|].
  rewrite Forall_forall in *. intros x Hx. apply Hrow.
  now apply filter_In in Hx as [Hx _].
Qed.

Lemma table_after_sorted calls :
  StronglySorted by_timestamp (table_after calls).
Proof.
  induction calls as [|c calls IH] using rev_ind; [constructor|].
  rewrite table_after_snoc. unfold table_put.
  now apply table_insert_sorted, filter_sorted.
Qed.

Lemma rows_of_tracked_records sid (rows : list item) :
  Forall (fun row => exists t, row = tracked_item sid t) rows ->
  exists recs, rows = map (tracked_item sid) recs.
Proof.
  induction 1 as [|row rows [t ->] _ [recs ->]].
  - now exists [].
  - now exists (t :: recs).
Qed.

Lemma StronglySorted_map_intro {A B : Type} (f : B -> A)
    (R : A -> A -> Prop) l :
  StronglySorted (fun a b => R (f a) (f b)) l -> StronglySorted R (map f l).
Proof.
  induction 1 as [|x l Hs IH Hx]; simpl; constructor; [exact IH|].
  now apply Forall_map.
Qed.

(** Whatever the calls of a session and their clock readings, a query of
    the table returns tracked records in the order of their timestamps. *)
Lemma table_returns_records_in_order (calls : list call) (sid clock : string) :
  Forall (fun c => c_session c = sid) calls ->
  exists recs,
    read_activities (aws_on_table (table_after calls) clock) sid =
      Ok (map (tracked_item sid) recs) /\
    Sorted ts_le (map t_timestamp recs) /\
    (forall t, In t recs -> exists c, In c calls /\ t = call_record c).
Proof.
  intros Hsid.
  destruct (rows_of_tracked_records sid (table_after calls)) as [recs Hrows].
  { apply Forall_forall. intros row Hrow.
    apply table_after_rows in Hrow as (c & Hc & ->).
    exists (call_record c). rewrite Forall_forall in Hsid.
    now apply activity_of_call_in_session, Hsid. }
  exists recs. split; [|split].
  - unfold read_activities. cbn.
    now rewrite (table_items_of_one_session sid calls Hsid), Hrows.
  - apply StronglySorted_Sorted, StronglySorted_map_intro.
    pose proof (table_after_sorted calls) as Hs. rewrite Hrows in Hs.
    apply StronglySorted_map in Hs. exact Hs.
  - intros t Ht.
    assert (Hrow : In (tracked_item sid t) (table_after calls))
      by (rewrite Hrows; now apply in_map).
    apply table_after_rows in Hrow as (c & Hc & Heq).
    exists c. split; [exact Hc|].
    unfold tracked_item, activity_of_call, activity_item in Heq.
    destruct t, c. simpl in *. injection Heq. intros. subst. reflexivity.
Qed.
